(** * log-socket: the listener of [internal/listener.go]

    A shallow embedding of the websocket listener: the flow addressing
    ([ExtractFlow]), the allow-list lookup ([SeekSlice]), the
    authorization-filtered [Send] of a listener, and the admission handler
    installed by [Listen].

    Go strings are byte sequences and are modelled as [string]; a [[]byte]
    is a [list byte]; a Go [error] is modelled by its message, and a
    possibly-nil error by an [option]. *)

From Stdlib Require Import ZArith Ascii String List Lia Bool.
From stdpp Require Import base gmap strings.

Import ListNotations.
Local Open Scope Z_scope.
Local Set Warnings "-register-all".

(** ** The pieces of Go's [strings] package the listener uses *)

Module strings.

(** [strings.TrimLeft(s, cutset)]: [s] without its leading bytes that
    occur in [cutset]. *)
Fixpoint TrimLeft (s cutset : string) : string :=
  match s with
  | EmptyString => EmptyString
  | String c s' =>
      if existsb (Ascii.eqb c) (list_ascii_of_string cutset)
      then TrimLeft s' cutset
      else s
  end.

(** [strings.Split(s, sep)] for a one-byte separator, which is what both
    call sites of the listener pass: the substrings between the
    separators, in order; never an empty slice. *)
Fixpoint Split (s : string) (sep : ascii) : list string :=
  match s with
  | EmptyString => [EmptyString]
  | String c s' =>
      if Ascii.eqb c sep then EmptyString :: Split s' sep
      else match Split s' sep with
           | [] => [String c EmptyString]
           | elt :: elts => String c elt :: elts
           end
  end.

(** [strings.ReplaceAll(s, old, new)] for a one-byte [old]: every
    occurrence of [old] becomes [new]. *)
Fixpoint ReplaceAll (s : string) (old : ascii) (new : string) : string :=
  match s with
  | EmptyString => EmptyString
  | String c s' =>
      if Ascii.eqb c old then new +:+ ReplaceAll s' old new
      else String c (ReplaceAll s' old new)
  end.

End strings.

Definition error := string.

(** [errors.New]. *)
Definition errors_New (msg : string) : error := msg.

(** ** Flow addressing *)

(** [type FlowKind string]. *)
Definition FlowKind := string.

(** Modelled from the spec: the two kinds of a FlowReference, [Flow] and
    [ClusterFlow]; their constants are declared outside [listener.go].
    [ExtractFlow] converts the first path segment to a [FlowKind], so the
    kinds are the first segments of the admission paths [/flow/...] and
    [/clusterflow/...]. *)
Definition Flow : FlowKind := "flow".
Definition ClusterFlow : FlowKind := "clusterflow".

(** Modelled from the spec: [FlowReference] is
    [{Kind, Namespace, Name}]; the struct is declared outside
    [listener.go], which assigns exactly these three fields. *)
Record FlowReference := mkFlowReference {
  Kind : FlowKind;
  Namespace : string;
  Name : string
}.

(** The zero value of the named result [res]. *)
Definition FlowReference_zero : FlowReference :=
  mkFlowReference EmptyString EmptyString EmptyString.

(** The part of [*http.Request] the listener reads: the header and
    [URL.Path]. *)
Record Request := mkRequest {
  Header : gmap string (list string);
  Path : string
}.

(** The segments [ExtractFlow] works on. *)
Definition path_elts (p : string) : list string :=
  strings.Split (strings.TrimLeft p "/") "/"%char.

(** [ExtractFlow] of [internal/listener.go]. *)
Definition ExtractFlow (req : Request) : FlowReference * option error :=
  let elts := path_elts (Path req) in
  if Z.of_nat (length elts) <? 3
  then (FlowReference_zero, Some (errors_New "error parsing listener reg URL"))
  else
    (mkFlowReference (nth 0 elts EmptyString)
                     (nth 1 elts EmptyString)
                     (nth 2 elts EmptyString),
     None).

(** [SeekSlice]: the index of the first element equal to [str], or [-1]. *)
Fixpoint SeekSlice_from (i : Z) (slice : list string) (str : string) : Z :=
  match slice with
  | [] => -1
  | s :: rest => if String.eqb s str then i else SeekSlice_from (i + 1) rest str
  end.

Definition SeekSlice (slice : list string) (str : string) : Z :=
  SeekSlice_from 0 slice str.

(** ** Records and the nested lookup *)

(** A Go [interface{}] value as the record decoder produces it. Numbers
    are never inspected by the listener; they are kept as integers. *)
Inductive value :=
| VNil
| VBool (b : bool)
| VNumber (n : Z)
| VString (s : string)
| VSlice (vs : list value)
| VMap (m : gmap string value).

(** Modelled from the spec: [Record] is [{Fields, Raw}], here under the
    names [listener.go] reads, [Data] (a [map[string]interface{}]) and
    [RawData] (a [[]byte]); the struct is declared outside [listener.go]. *)
Record Record_ := mkRecord {
  Data : gmap string value;
  RawData : list Byte.byte
}.

(** Modelled from the spec: [GetIn] locates a nested field of the
    string-keyed mapping, following the keys from the outside in; the
    function is declared outside [listener.go]. A key that is missing, or
    looked up in something that is not a mapping, gives the nil interface. *)
Fixpoint GetIn_value (cur : value) (keys : list string) : value :=
  match keys with
  | [] => cur
  | k :: ks =>
      match cur with
      | VMap m =>
          match m !! k with
          | Some v => GetIn_value v ks
          | None => VNil
          end
      | _ => VNil
      end
  end.

Definition GetIn (data : gmap string value) (keys : list string) : value :=
  GetIn_value (VMap data) keys.

(** ** Metrics *)

(** Modelled from the spec: the counters of the external [metrics]
    package, "listener-total, listener-rejected, listener-approved,
    listener-removed; log-transferred, log-filtered; bytes-transferred,
    bytes-filtered", under the keys [listener.go] passes. *)
Inductive ListenerMetric :=
  MListenerTotal | MListenerRejected | MListenerApproved | MListenerRemoved.
Inductive LogMetric := MLogTransfered | MLogFiltered.
Inductive BytesMetric := MBytesTransferred | MBytesFiltered.

Record Metrics := mkMetrics {
  listener_total : Z;
  listener_rejected : Z;
  listener_approved : Z;
  listener_removed : Z;
  log_transferred : Z;
  log_filtered : Z;
  bytes_transferred : Z;
  bytes_filtered : Z
}.

Definition Metrics_zero : Metrics := mkMetrics 0 0 0 0 0 0 0 0.

Module metrics.

(** Modelled from the spec: [metrics.Listeners(k)] adds one to the
    listener counter [k]. *)
Definition Listeners (k : ListenerMetric) (m : Metrics) : Metrics :=
  match k with
  | MListenerTotal =>
      mkMetrics (listener_total m + 1) (listener_rejected m) (listener_approved m)
        (listener_removed m) (log_transferred m) (log_filtered m)
        (bytes_transferred m) (bytes_filtered m)
  | MListenerRejected =>
      mkMetrics (listener_total m) (listener_rejected m + 1) (listener_approved m)
        (listener_removed m) (log_transferred m) (log_filtered m)
        (bytes_transferred m) (bytes_filtered m)
  | MListenerApproved =>
      mkMetrics (listener_total m) (listener_rejected m) (listener_approved m + 1)
        (listener_removed m) (log_transferred m) (log_filtered m)
        (bytes_transferred m) (bytes_filtered m)
  | MListenerRemoved =>
      mkMetrics (listener_total m) (listener_rejected m) (listener_approved m)
        (listener_removed m + 1) (log_transferred m) (log_filtered m)
        (bytes_transferred m) (bytes_filtered m)
  end.

(** Modelled from the spec: [metrics.Log(k)] adds one to the record
    counter [k]. *)
Definition Log (k : LogMetric) (m : Metrics) : Metrics :=
  match k with
  | MLogTransfered =>
      mkMetrics (listener_total m) (listener_rejected m) (listener_approved m)
        (listener_removed m) (log_transferred m + 1) (log_filtered m)
        (bytes_transferred m) (bytes_filtered m)
  | MLogFiltered =>
      mkMetrics (listener_total m) (listener_rejected m) (listener_approved m)
        (listener_removed m) (log_transferred m) (log_filtered m + 1)
        (bytes_transferred m) (bytes_filtered m)
  end.

(** Modelled from the spec: [metrics.Bytes(k, n)] adds [n] to the byte
    counter [k]. *)
Definition Bytes (k : BytesMetric) (n : Z) (m : Metrics) : Metrics :=
  match k with
  | MBytesTransferred =>
      mkMetrics (listener_total m) (listener_rejected m) (listener_approved m)
        (listener_removed m) (log_transferred m) (log_filtered m)
        (bytes_transferred m + n) (bytes_filtered m)
  | MBytesFiltered =>
      mkMetrics (listener_total m) (listener_rejected m) (listener_approved m)
        (listener_removed m) (log_transferred m) (log_filtered m)
        (bytes_transferred m) (bytes_filtered m + n)
  end.

End metrics.

(** ** Listeners, events and the world *)

(** [authv1.UserInfo]; the listener reads [Username] only. *)
Record UserInfo := mkUserInfo {
  Username : string;
  UID : string;
  Groups : list string
}.

(** A [*websocket.Conn] is a pointer: the connection it points to is
    named by a handle, and two pointers are equal when the handles are. *)
Definition ConnHandle := nat.

(** [type listener struct]. The fields [reg] and [logs] always hold the
    registry and the sink [Listen] was given, which are the ones of the
    world below, so they are not repeated in every listener. *)
Record listener := mklistener {
  Conn : ConnHandle;
  flow : FlowReference;
  usrInfo : UserInfo
}.

(** [listener.Equals]. *)
Definition Equals (l o : listener) : bool := Nat.eqb (Conn l) (Conn o).

(** What a [go] statement starts. *)
Inductive Task :=
| GoUnregister (l : listener)
| GoReadLoop (c : ConnHandle).

(** The calls the listener makes on its collaborators, in the order it
    makes them. *)
Inductive Event :=
| EvLog (msg : string) (err : option error)
| EvAuthenticate (token : string)
| EvHttpError (msg : string) (code : Z)
| EvUpgrade
| EvRegister (l : listener)
| EvUnregister (l : listener)
| EvGo (t : Task)
| EvSetCloseHandler (c : ConnHandle) (l : listener)
| EvNextWriter (c : ConnHandle) (messageType : Z)
| EvWrite (c : ConnHandle) (data : list Byte.byte)
| EvClose (c : ConnHandle).

Record World := mkWorld {
  counters : Metrics;
  trace : list Event
}.

Definition World_zero : World := mkWorld Metrics_zero [].

(** A Go call either returns or panics; its effects on the world stay in
    both cases. *)
Inductive outcome (A : Type) :=
| Returned (a : A)
| Panicked (msg : string).
Arguments Returned {A} a.
Arguments Panicked {A} msg.

Definition M (A : Type) : Type := World -> outcome A * World.

Definition ret {A} (a : A) : M A := fun w => (Returned a, w).

Definition bind {A B} (c : M A) (k : A -> M B) : M B :=
  fun w =>
    match c w with
    | (Returned a, w') => k a w'
    | (Panicked msg, w') => (Panicked msg, w')
    end.

Definition panic {A} (msg : string) : M A := fun w => (Panicked msg, w).

Declare Scope go_scope.
Delimit Scope go_scope with go.
Notation "x <- c ;; k" := (bind c (fun x => k))
  (at level 100, c at next level, k at level 200, right associativity,
   only parsing) : go_scope.
Notation "c ;; k" := (bind c (fun _ => k))
  (at level 100, k at level 200, right associativity, only parsing) : go_scope.
Local Open Scope go_scope.

Definition emit (e : Event) : M unit :=
  fun w => (Returned tt, mkWorld (counters w) (trace w ++ [e])).

Definition count (f : Metrics -> Metrics) : M unit :=
  fun w => (Returned tt, mkWorld (f (counters w)) (trace w)).

(** [log.Event(logs, msg, ...)]; of the options only [log.Error] is kept. *)
Definition log_Event (msg : string) (err : option error) : M unit :=
  emit (EvLog msg err).

(** [go f()]. *)
Definition go (t : Task) : M unit := emit (EvGo t).

(** [v.(string)], the one-result type assertion: it panics unless the
    dynamic type of [v] is [string]. The text of the panic stands for the
    one of the Go runtime, which also names the dynamic type of [v]. *)
Definition assert_string (v : value) : M string :=
  match v with
  | VString s => ret s
  | _ => panic "interface conversion: interface {} is not string"
  end.

(** ** The websocket connection and the collaborators of [Listen] *)

(** [websocket.BinaryMessage]. *)
Definition BinaryMessage : Z := 2.

(** [http.StatusForbidden], [http.StatusNotFound] and
    [http.StatusInternalServerError]. *)
Definition StatusForbidden : Z := 403.
Definition StatusNotFound : Z := 404.
Definition StatusInternalServerError : Z := 500.

(** What the connection answers to the three calls of one [Send]:
    the error of [NextWriter], of [Write] and of [Close], [None] for nil. *)
Record ConnBehaviour := mkConnBehaviour {
  nextWriter_err : option error;
  write_err : option error;
  close_err : option error
}.

Definition healthy : ConnBehaviour := mkConnBehaviour None None None.

(** The collaborators of the handler: the [Authenticator] interface
    and the [websocket.Upgrader]. [Upgrade] gives what the call returns;
    what the upgrader itself writes to the client when the handshake fails
    happens inside the call [EvUpgrade] and is not a separate event:
    [EvHttpError] stands for the calls of [http.Error] the handler makes
    itself. *)
Record Env := mkEnv {
  Authenticate : string -> UserInfo + error;
  Upgrade : Request -> ConnHandle + error
}.

(** [http.Header.Get] for a key in canonical form: the first value of the
    key, or the empty string. *)
Definition Header_Get (h : gmap string (list string)) (key : string) : string :=
  match h !! key with
  | Some (v :: _) => v
  | _ => EmptyString
  end.

(** [http.Error(w, msg, code)]. *)
Definition http_Error (msg : string) (code : Z) : M unit :=
  emit (EvHttpError msg code).

(** The byte [0x22], the double quote of the JSON payload. *)
Definition dquote : string := String "034"%char EmptyString.

(** [fmt.Sprintf] at the format of the permission-denied payload,
    [{"error": "Permission denied to access %s logs for %s"}]. *)
Definition Sprintf_denied (pod user : string) : string :=
  "{" +:+ dquote +:+ "error" +:+ dquote +:+ ": " +:+ dquote +:+
  "Permission denied to access " +:+ pod +:+ " logs for " +:+ user +:+
  dquote +:+ "}".

(** [len] of a byte slice. *)
Definition len (b : list Byte.byte) : Z := Z.of_nat (length b).

Section Listener.

(** The constants [RBACAllowList] and [AuthHeaderKey] are declared
    outside [listener.go]: the label that carries the access list, and the
    (canonical) name of the header that carries the token. *)
Variable RBACAllowList : string.
Variable AuthHeaderKey : string.

(** [Send] of a [*listener]. The label [unregister] is the statement
    [go l.reg.Unregister(l)]. *)
Definition Send (cs : ConnBehaviour) (l : listener) (r : Record_) : M unit :=
  let unregister := go (GoUnregister l) in
  match GetIn (Data r) ["kubernetes"; "labels"; RBACAllowList]%string with
  | VString allowListStr =>
      let allowList := strings.Split allowListStr ","%char in
      data <-
        (if SeekSlice allowList
              (strings.ReplaceAll (Username (usrInfo l)) ":"%char "_") =? -1
         then
           count (metrics.Log MLogFiltered) ;;
           count (metrics.Bytes MBytesFiltered (len (RawData r))) ;;
           pod <- assert_string (GetIn (Data r) ["kubernetes"; "pod_name"]%string) ;;
           ret (list_byte_of_string (Sprintf_denied pod (Username (usrInfo l))))
         else
           count (metrics.Log MLogTransfered) ;;
           count (metrics.Bytes MBytesTransferred (len (RawData r))) ;;
           ret (RawData r)) ;;
      emit (EvNextWriter (Conn l) BinaryMessage) ;;
      match nextWriter_err cs with
      | Some err =>
          log_Event "an error occurred while getting next writer for websocket connection" (Some err) ;;
          unregister
      | None =>
          emit (EvWrite (Conn l) data) ;;
          match write_err cs with
          | Some err =>
              log_Event "an error occurred while writing record data to websocket connection" (Some err) ;;
              unregister
          | None =>
              emit (EvClose (Conn l)) ;;
              match close_err cs with
              | Some err =>
                  log_Event "an error occurred while flushing frame to websocket connection" (Some err) ;;
                  unregister
              | None => ret tt
              end
          end
      end
  | _ => log_Event "RBAC list missing from log record" None
  end.

(** [listener.Flow]. *)
Definition Flow_of (l : listener) : FlowReference := flow l.

(** The close handler [Listen] installs on an admitted connection. *)
Definition closeHandler (l : listener) : M unit :=
  count (metrics.Listeners MListenerRemoved) ;;
  log_Event "websocket connection closing" None ;;
  emit (EvUnregister l) ;;
  ret tt.

(** The [http.HandlerFunc] of [Listen]: the admission of one request. *)
Definition Listen_handler (env : Env) (r : Request) : M unit :=
  log_Event "new listener" None ;;
  count (metrics.Listeners MListenerTotal) ;;
  let authToken := Header_Get (Header r) AuthHeaderKey in
  if String.eqb authToken EmptyString then
    count (metrics.Listeners MListenerRejected) ;;
    http_Error "missing authentication token" StatusForbidden
  else
    emit (EvAuthenticate authToken) ;;
    match Authenticate env authToken with
    | inr err =>
        count (metrics.Listeners MListenerRejected) ;;
        http_Error err StatusInternalServerError
    | inl usrInfo =>
        match ExtractFlow r with
        | (_, Some err) => http_Error err StatusNotFound
        | (nn, None) =>
            emit EvUpgrade ;;
            match Upgrade env r with
            | inr err => log_Event "failed to upgrade connection" (Some err)
            | inl wsConn =>
                log_Event "successful websocket upgrade" None ;;
                let l := mklistener wsConn nn usrInfo in
                count (metrics.Listeners MListenerApproved) ;;
                emit (EvRegister l) ;;
                go (GoReadLoop wsConn) ;;
                emit (EvSetCloseHandler wsConn l)
            end
        end
    end.

End Listener.

(** ** The earlier revision of the listener (the unnamed source file)

    It has no authentication and no filtering; its flow addressing
    returns a [types.NamespacedName] and checks the first segment. *)

Module Part000.

(** [types.NamespacedName]. *)
Record NamespacedName := mkNamespacedName {
  Namespace : string;
  Name : string
}.

Definition NamespacedName_zero : NamespacedName :=
  mkNamespacedName EmptyString EmptyString.

(** [ExtractFlow] of the earlier revision. *)
Definition ExtractFlow (req : Request) : NamespacedName * option error :=
  let elts := path_elts (Path req) in
  if Z.of_nat (length elts) <? 2
  then (NamespacedName_zero, Some (errors_New "error parsing listener reg URL"))
  else
    let elts0 := nth 0 elts EmptyString in
    if String.eqb elts0 "flow" then
      if negb (Z.of_nat (length elts) =? 3)
      then (NamespacedName_zero, Some (errors_New "error parsing listener reg URL"))
      else (mkNamespacedName (nth 1 elts EmptyString) (nth 2 elts EmptyString), None)
    else if String.eqb elts0 "clusterflow" then
      (mkNamespacedName EmptyString (nth 1 elts EmptyString), None)
    else
      (NamespacedName_zero, Some (errors_New "unknown flow type in listener reg URL")).

Record listener := mklistener {
  Conn : ConnHandle;
  flow : NamespacedName
}.

(** The calls of the earlier handler, in order. *)
Inductive Call :=
| CLog (msg : string) (err : option error)
| CUpgrade
| CHttpError (msg : string) (code : Z)
| CRegister (l : listener)
| CSetCloseHandler (c : ConnHandle) (l : listener).

(** The [http.HandlerFunc] of the earlier [Listen]: the upgrade comes
    first, the flow is parsed on the upgraded connection. *)
Definition Listen_handler (Upgrade : Request -> ConnHandle + error)
    (r : Request) : list Call :=
  CLog "new listener" None :: CUpgrade ::
  match Upgrade r with
  | inr err => [CLog "failed to upgrade connection" (Some err)]
  | inl wsConn =>
      CLog "successful websocket upgrade" None ::
      match ExtractFlow r with
      | (_, Some err) => [CHttpError err StatusNotFound]
      | (nn, None) =>
          let l := mklistener wsConn nn in
          [CRegister l; CSetCloseHandler wsConn l]
      end
  end.

(** [listener.Equals] of the earlier revision. *)
Definition Equals (l o : listener) : bool := Nat.eqb (Conn l) (Conn o).

(** The record of the earlier revision: its [Data] is handed to [Write]
    as it is, so it is a [[]byte]; the struct is declared outside the file. *)
Record Record_ := mkRecord {
  Data : list Byte.byte
}.

(** The calls of the earlier [Send], in order. *)
Inductive SendCall :=
| SLog (msg : string) (err : option error)
| SNextWriter (c : ConnHandle) (messageType : Z)
| SWrite (c : ConnHandle) (data : list Byte.byte)
| SClose (c : ConnHandle)
| SGoUnregister (l : listener).

(** [listener.Send] of the earlier revision: no access check, the
    record's data is written to whoever is connected. *)
Definition Send (cs : ConnBehaviour) (l : listener) (r : Record_) : list SendCall :=
  let unregister := [SGoUnregister l] in
  SNextWriter (Conn l) BinaryMessage ::
  match nextWriter_err cs with
  | Some err =>
      SLog "an error occurred while getting next writer for websocket connection" (Some err) ::
      unregister
  | None =>
      SWrite (Conn l) (Data r) ::
      match write_err cs with
      | Some err =>
          SLog "an error occurred while writing record data to websocket connection" (Some err) ::
          unregister
      | None =>
          SClose (Conn l) ::
          match close_err cs with
          | Some err =>
              SLog "an error occurred while flushing frame to websocket connection" (Some err) ::
              unregister
          | None => []
          end
      end
  end.

End Part000.

(** ** The specification's vocabulary *)

(** Normalising an identity: every colon becomes an underscore. *)
Definition normalize (s : string) : string :=
  strings.ReplaceAll s ":"%char "_".

(** The membership test as the specification words it: the normalised
    identity among the normalised candidates. *)
Definition spec_allows (u L : string) : bool :=
  existsb (String.eqb (normalize u)) (map normalize (strings.Split L ","%char)).

(** The parser as the specification words it, on the segments of the
    path: the two shapes, and nothing else. *)
Definition parse_spec (elts : list string) : option FlowReference :=
  match elts with
  | [kind; namespace; name] =>
      if String.eqb kind "flow"
      then Some (mkFlowReference Flow namespace name)
      else None
  | [kind; name] =>
      if String.eqb kind "clusterflow"
      then Some (mkFlowReference ClusterFlow EmptyString name)
      else None
  | _ => None
  end.

(** The FlowReference of a successful [ExtractFlow], if any. *)
Definition ExtractFlow_result (req : Request) : option FlowReference :=
  match ExtractFlow req with
  | (res, None) => Some res
  | (_, Some _) => None
  end.

(** The data-model invariant of the specification. *)
Definition namespace_invariant (f : FlowReference) : Prop :=
  Namespace f = EmptyString <-> Kind f = ClusterFlow.

(** The payloads handed to [Write] on connection [c], in order. *)
Fixpoint written (c : ConnHandle) (t : list Event) : list (list Byte.byte) :=
  match t with
  | [] => []
  | EvWrite c' data :: t' =>
      if Nat.eqb c' c then data :: written c t' else written c t'
  | _ :: t' => written c t'
  end.

(** A registry operation: [Register] or [Unregister], called directly,
    through a [go] statement, or installed as the close handler. *)
Definition registry_op (e : Event) : bool :=
  match e with
  | EvRegister _ | EvUnregister _ | EvGo (GoUnregister _)
  | EvSetCloseHandler _ _ => true
  | _ => false
  end.

(** The calls of the write stage of [Send] for the payload [data]: the
    three calls on the connection up to the first that fails, then the log
    entry and the [go] statement of the label [unregister]. *)
Definition frame_trace (cs : ConnBehaviour) (l : listener)
    (data : list Byte.byte) : list Event :=
  let unregister := EvGo (GoUnregister l) in
  EvNextWriter (Conn l) BinaryMessage ::
  match nextWriter_err cs with
  | Some err =>
      [EvLog "an error occurred while getting next writer for websocket connection" (Some err);
       unregister]
  | None =>
      EvWrite (Conn l) data ::
      match write_err cs with
      | Some err =>
          [EvLog "an error occurred while writing record data to websocket connection" (Some err);
           unregister]
      | None =>
          EvClose (Conn l) ::
          match close_err cs with
          | Some err =>
              [EvLog "an error occurred while flushing frame to websocket connection" (Some err);
               unregister]
          | None => []
          end
      end
  end.

(** The counters after a record was filtered, and after it was
    transferred. *)
Definition count_filtered (r : Record_) (m : Metrics) : Metrics :=
  metrics.Bytes MBytesFiltered (len (RawData r)) (metrics.Log MLogFiltered m).

Definition count_transferred (r : Record_) (m : Metrics) : Metrics :=
  metrics.Bytes MBytesTransferred (len (RawData r)) (metrics.Log MLogTransfered m).

(** The permission-denied payload for a pod and a user. *)
Definition denied_payload (pod user : string) : list Byte.byte :=
  list_byte_of_string (Sprintf_denied pod user).

(** The record is delivered: [Send] counted it as transferred and its
    calls are those of the write stage for the raw payload. *)
Definition delivered (w w' : World) (cs : ConnBehaviour) (l : listener)
    (r : Record_) : Prop :=
  counters w' = count_transferred r (counters w) /\
  trace w' = trace w ++ frame_trace cs l (RawData r).

(** The record is withheld: [Send] counted it as filtered, and its calls
    are those of the write stage for the permission-denied payload, made
    of the pod name and the username, or none at all when the record has no
    pod name to put in it. The raw payload is not handed to the writer. *)
Definition withheld (w w' : World) (cs : ConnBehaviour) (l : listener)
    (r : Record_) : Prop :=
  counters w' = count_filtered r (counters w) /\
  match GetIn (Data r) ["kubernetes"; "pod_name"]%string with
  | VString pod =>
      trace w' =
      trace w ++ frame_trace cs l (denied_payload pod (Username (usrInfo l)))
  | _ => trace w' = trace w
  end.

Definition is_string (v : value) : bool :=
  match v with
  | VString _ => true
  | _ => false
  end.

(** ** Sample inputs *)

(** A value for each of the two constants, for the examples. *)
Definition sample_label : string := "rbac".
Definition sample_header : string := "Authorization".

(** A record's fields with the given access list and pod name, under
    [kubernetes.labels] and [kubernetes.pod_name]. *)
Definition sample_data (allow pod : option value) : gmap string value :=
  let labels : gmap string value :=
    match allow with
    | Some v => {[ sample_label := v ]}
    | None => ∅
    end in
  let kubernetes : gmap string value :=
    match pod with
    | Some v => {[ "labels"%string := VMap labels; "pod_name"%string := v ]}
    | None => {[ "labels"%string := VMap labels ]}
    end in
  {[ "kubernetes"%string := VMap kubernetes ]}.

Definition sample_raw : list Byte.byte := list_byte_of_string "hello".

Definition sample_record (allow pod : option value) : Record_ :=
  mkRecord (sample_data allow pod) sample_raw.

Definition sample_listener (user : string) : listener :=
  mklistener 7%nat (mkFlowReference Flow "ns" "n") (mkUserInfo user "uid" []).

Definition sample_request (token : list string) (path : string) : Request :=
  mkRequest {[ sample_header := token ]} path.

(** An authenticator that knows one token, and an upgrader that
    succeeds or fails on every request. *)
Definition sample_authenticate (token : string) : UserInfo + error :=
  if String.eqb token "t0k3n" then inl (mkUserInfo "bob" "uid" [])
  else inr "invalid token"%string.

Definition sample_env (upgrades : bool) : Env :=
  mkEnv sample_authenticate
        (fun _ => if upgrades then inl 7%nat else inr "bad handshake"%string).

(** ** Further vocabulary *)

(** [websocket.CloseMessage]. *)
Definition CloseMessage : Z := 8.

(** The goroutine [Listen] starts on an admitted connection: it calls
    [ReadMessage] until a call answers with a close message or an error,
    and does nothing with what it reads. [incoming] holds the answers of the
    successive calls, message type and error; the result is the number of
    calls answered and whether the goroutine returned (it is otherwise
    blocked in the next call). *)
Fixpoint readLoop (incoming : list (Z * option error)) : nat * bool :=
  match incoming with
  | [] => (0%nat, false)
  | (typ, err) :: rest =>
      if (typ =? CloseMessage) || match err with Some _ => true | None => false end
      then (1%nat, true)
      else let (n, returned) := readLoop rest in (S n, returned)
  end.

(** An answer of [ReadMessage] that ends the loop. *)
Definition ends_loop (m : Z * option error) : bool :=
  (fst m =? CloseMessage) || match snd m with Some _ => true | None => false end.

(** The number of bytes [c] in [s], and whether there is one. *)
Fixpoint count_byte (c : ascii) (s : string) : nat :=
  match s with
  | EmptyString => 0%nat
  | String c' s' => if Ascii.eqb c' c then S (count_byte c s') else count_byte c s'
  end.

Fixpoint contains_byte (c : ascii) (s : string) : bool :=
  match s with
  | EmptyString => false
  | String c' s' => Ascii.eqb c' c || contains_byte c s'
  end.

(** The path [/kind/namespace/name]. *)
Definition flow_path (kind namespace name : string) : string :=
  "/" +:+ kind +:+ "/" +:+ namespace +:+ "/" +:+ name.

(** The calls [Send] may make for the listener [l]: a log entry, one of
    the three calls on the connection of [l], with a binary message, and
    the [go] statement that unregisters [l]. *)
Definition Send_call (l : listener) (e : Event) : Prop :=
  match e with
  | EvLog _ _ => True
  | EvNextWriter c messageType => c = Conn l /\ messageType = BinaryMessage
  | EvWrite c _ => c = Conn l
  | EvClose c => c = Conn l
  | EvGo t => t = GoUnregister l
  | _ => False
  end.

Definition is_http_error (e : Event) : bool :=
  match e with
  | EvHttpError _ _ => true
  | _ => false
  end.

Definition is_upgrade (e : Event) : bool :=
  match e with
  | EvUpgrade => true
  | _ => false
  end.

Definition is_write (e : Event) : bool :=
  match e with
  | EvWrite _ _ => true
  | _ => false
  end.

(** The connection fails at one of the three calls of a [Send]. *)
Definition fails (cs : ConnBehaviour) : bool :=
  match nextWriter_err cs, write_err cs, close_err cs with
  | None, None, None => false
  | _, _, _ => true
  end.

(** * Properties *)

(** ** [SeekSlice] and the normalisation *)

Lemma SeekSlice_from_lower (slice : list string) (str : string) (i : Z) :
  SeekSlice_from i slice str = -1 \/ i <= SeekSlice_from i slice str.
Proof.
  revert i. induction slice as [|s rest IH]; intros i; simpl.
  - now left.
  - destruct (String.eqb s str).
    + right. lia.
    + destruct (IH (i + 1)) as [H|H]; [now left | right; lia].
Qed.

Lemma SeekSlice_from_missing (slice : list string) (str : string) (i : Z) :
  0 <= i -> (SeekSlice_from i slice str = -1 <-> ~ In str slice).
Proof.
  revert i. induction slice as [|s rest IH]; intros i Hi; simpl.
  - tauto.
  - destruct (String.eqb_spec s str) as [Heq|Hne].
    + split; [lia | intros H; exfalso; apply H; now left].
    + rewrite (IH (i + 1)) by lia. tauto.
Qed.

Lemma SeekSlice_missing (slice : list string) (str : string) :
  SeekSlice slice str = -1 <-> ~ In str slice.
Proof. unfold SeekSlice. apply SeekSlice_from_missing. lia. Qed.

Lemma SeekSlice_test (slice : list string) (str : string) :
  (SeekSlice slice str =? -1) = false <-> In str slice.
Proof.
  rewrite Z.eqb_neq, SeekSlice_missing.
  split; [|tauto].
  intros H. destruct (in_dec string_dec str slice); tauto.
Qed.

Lemma normalize_idempotent (s : string) : normalize (normalize s) = normalize s.
Proof.
  unfold normalize. induction s as [|c s IH]; [reflexivity|].
  cbn [strings.ReplaceAll]. destruct (Ascii.eqb c ":") eqn:E.
  - change ("_" +:+ strings.ReplaceAll s ":" "_")
      with (String "_" (strings.ReplaceAll s ":" "_")).
    cbn [strings.ReplaceAll].
    change (Ascii.eqb "_" ":") with false. cbv iota. now rewrite IH.
  - cbn [strings.ReplaceAll]. now rewrite E, IH.
Qed.

(** A candidate equal to the normalised identity is also among the
    normalised candidates: the membership test of the code is at least as
    strict as the one of the specification. *)
Lemma code_allows_spec_allows (u L : string) :
  In (normalize u) (strings.Split L ","%char) -> spec_allows u L = true.
Proof.
  intros H. unfold spec_allows. apply existsb_exists.
  exists (normalize u). split; [|apply String.eqb_refl].
  rewrite <- (normalize_idempotent u) at 1. now apply in_map.
Qed.

(** ** Flow addressing *)

Lemma Split_nonempty (s : string) (sep : ascii) : strings.Split s sep <> [].
Proof.
  destruct s as [|c s]; simpl; [discriminate|].
  destruct (Ascii.eqb c sep); [discriminate|].
  destruct (strings.Split s sep); discriminate.
Qed.

Lemma ExtractFlow_three (req : Request) (kind ns name : string) (rest : list string) :
  path_elts (Path req) = kind :: ns :: name :: rest ->
  ExtractFlow req = (mkFlowReference kind ns name, None).
Proof.
  intros H. unfold ExtractFlow. rewrite H. cbn [nth].
  destruct (Z.ltb_spec (Z.of_nat (length (kind :: ns :: name :: rest))) 3) as [Hlt|_];
    [|reflexivity].
  simpl length in Hlt. lia.
Qed.

Lemma ExtractFlow_short (req : Request) :
  (length (path_elts (Path req)) < 3)%nat ->
  ExtractFlow req =
  (FlowReference_zero, Some (errors_New "error parsing listener reg URL")).
Proof.
  intros H. unfold ExtractFlow.
  destruct (Z.ltb_spec (Z.of_nat (length (path_elts (Path req)))) 3) as [_|Hge];
    [reflexivity | lia].
Qed.

Lemma ExtractFlow_ok_inv (req : Request) (res : FlowReference) :
  ExtractFlow req = (res, None) ->
  exists rest,
    path_elts (Path req) = Kind res :: Namespace res :: Name res :: rest.
Proof.
  unfold ExtractFlow.
  destruct (path_elts (Path req)) as [|a [|b [|c rest]]]; simpl; try discriminate.
  destruct (Z.ltb_spec (Z.of_nat (S (S (S (length rest))))) 3) as [Hlt|_];
    [discriminate|].
  intros [= <-]. now exists rest.
Qed.

(** C2, amended. [ExtractFlow] succeeds exactly on the paths of at least
    three segments: on [kind, namespace, name, ...] it yields
    [{Kind: kind, Namespace: namespace, Name: name}] whatever the first
    segment is and whatever follows the third, so [flow, namespace, name]
    yields [{Kind: Flow, Namespace: namespace, Name: name}]; on fewer than
    three segments, the shape [clusterflow, name] included, it yields the
    parse error and the zero FlowReference. *)
Theorem ExtractFlow_shapes (req : Request) :
  (forall kind ns name rest,
      path_elts (Path req) = kind :: ns :: name :: rest ->
      ExtractFlow req = (mkFlowReference kind ns name, None)) /\
  (forall ns name,
      path_elts (Path req) = ["flow"%string; ns; name] ->
      ExtractFlow req = (mkFlowReference Flow ns name, None)) /\
  ((length (path_elts (Path req)) < 3)%nat ->
   ExtractFlow req =
   (FlowReference_zero, Some (errors_New "error parsing listener reg URL"))) /\
  (forall res, ExtractFlow req = (res, None) ->
               (3 <= length (path_elts (Path req)))%nat).
Proof.
  split; [|split; [|split]].
  - intros kind ns name rest H. now apply ExtractFlow_three with rest.
  - intros ns name H. now apply ExtractFlow_three with [].
  - apply ExtractFlow_short.
  - intros res H. apply ExtractFlow_ok_inv in H as [rest ->]. simpl. lia.
Qed.

(** C9, amended. A FlowReference produced by a successful [ExtractFlow]
    carries the first three path segments as they are: its Kind is the
    first, its Namespace the second and its Name the third, for either
    kind; so its Namespace is empty exactly when the second segment is. *)
Theorem ExtractFlow_fields (req : Request) (res : FlowReference) :
  ExtractFlow req = (res, None) ->
  Kind res = nth 0 (path_elts (Path req)) EmptyString /\
  Namespace res = nth 1 (path_elts (Path req)) EmptyString /\
  Name res = nth 2 (path_elts (Path req)) EmptyString /\
  (Namespace res = EmptyString <->
   nth 1 (path_elts (Path req)) EmptyString = EmptyString).
Proof.
  intros H. apply ExtractFlow_ok_inv in H as [rest ->]. simpl. tauto.
Qed.

(** ** The authorization-filtered [Send] *)

Ltac run_go :=
  cbv beta iota zeta
    delta [bind count emit ret log_Event go http_Error panic assert_string
           counters trace].

Lemma written_app (c : ConnHandle) (t1 t2 : list Event) :
  written c (t1 ++ t2) = written c t1 ++ written c t2.
Proof.
  induction t1 as [|e t1 IH]; simpl; [reflexivity|].
  destruct e; try exact IH.
  destruct (Nat.eqb c0 c); simpl; now rewrite IH.
Qed.

Lemma written_frame_trace (cs : ConnBehaviour) (l : listener) (data : list Byte.byte) :
  nextWriter_err cs = None ->
  written (Conn l) (frame_trace cs l data) = [data].
Proof.
  intros H. unfold frame_trace. rewrite H. simpl.
  rewrite Nat.eqb_refl.
  destruct (write_err cs); [reflexivity|].
  destruct (close_err cs); reflexivity.
Qed.

Section SendFacts.

Variable RBACAllowList : string.
Variables (cs : ConnBehaviour) (l : listener) (r : Record_) (w : World).

Local Abbreviation allowListField :=
  (GetIn (Data r) ["kubernetes"; "labels"; RBACAllowList]%string).
Local Abbreviation podNameField :=
  (GetIn (Data r) ["kubernetes"; "pod_name"]%string).
Local Abbreviation user := (Username (usrInfo l)).

Lemma Send_missing :
  is_string allowListField = false ->
  Send RBACAllowList cs l r w =
  (Returned tt,
   mkWorld (counters w)
           (trace w ++ [EvLog "RBAC list missing from log record" None])).
Proof.
  intros H. unfold Send.
  destruct (GetIn (Data r) ["kubernetes"; "labels"; RBACAllowList]%string);
    try discriminate H; reflexivity.
Qed.

Lemma Send_allowed (L : string) :
  allowListField = VString L ->
  In (normalize user) (strings.Split L ","%char) ->
  Send RBACAllowList cs l r w =
  (Returned tt,
   mkWorld (count_transferred r (counters w))
           (trace w ++ frame_trace cs l (RawData r))).
Proof.
  intros HL Hin. unfold Send. rewrite HL.
  apply SeekSlice_test in Hin. unfold normalize in Hin. rewrite Hin.
  unfold frame_trace. run_go.
  destruct (nextWriter_err cs); run_go;
    [now rewrite <- !app_assoc|].
  destruct (write_err cs); run_go;
    [now rewrite <- !app_assoc|].
  destruct (close_err cs); run_go; now rewrite <- !app_assoc.
Qed.

Lemma Send_denied (L pod : string) :
  allowListField = VString L ->
  ~ In (normalize user) (strings.Split L ","%char) ->
  podNameField = VString pod ->
  Send RBACAllowList cs l r w =
  (Returned tt,
   mkWorld (count_filtered r (counters w))
           (trace w ++ frame_trace cs l (denied_payload pod user))).
Proof.
  intros HL Hin Hpod.
  unfold Send. rewrite HL.
  apply SeekSlice_missing, Z.eqb_eq in Hin. unfold normalize in Hin.
  rewrite Hin.
  rewrite Hpod. unfold frame_trace. run_go.
  destruct (nextWriter_err cs); run_go;
    [now rewrite <- !app_assoc|].
  destruct (write_err cs); run_go;
    [now rewrite <- !app_assoc|].
  destruct (close_err cs); run_go; now rewrite <- !app_assoc.
Qed.

Lemma Send_denied_panics (L : string) :
  allowListField = VString L ->
  ~ In (normalize user) (strings.Split L ","%char) ->
  is_string podNameField = false ->
  Send RBACAllowList cs l r w =
  (Panicked "interface conversion: interface {} is not string",
   mkWorld (count_filtered r (counters w)) (trace w)).
Proof.
  intros HL Hin Hpod.
  unfold Send. rewrite HL.
  apply SeekSlice_missing, Z.eqb_eq in Hin. unfold normalize in Hin.
  rewrite Hin.
  destruct (GetIn (Data r) ["kubernetes"; "pod_name"]%string);
    try discriminate Hpod; reflexivity.
Qed.

End SendFacts.

(** C5. When the access-list field of the record is absent or is not a
    string, [Send] returns having made one call only, the diagnostic log
    entry: nothing is written to the connection, no counter moves, and no
    unregistration is scheduled. *)
Theorem Send_without_access_list (RBACAllowList : string) (cs : ConnBehaviour)
    (l : listener) (r : Record_) (w : World) :
  is_string (GetIn (Data r) ["kubernetes"; "labels"; RBACAllowList]%string) = false ->
  exists w',
    Send RBACAllowList cs l r w = (Returned tt, w') /\
    counters w' = counters w /\
    trace w' = trace w ++ [EvLog "RBAC list missing from log record" None] /\
    written (Conn l) (trace w') = written (Conn l) (trace w).
Proof.
  intros H. eexists. split; [now apply Send_missing|].
  cbn [counters trace]. rewrite written_app, app_nil_r. auto.
Qed.

(** C4, amended. When the access-list field is a string and the
    normalised identity of the subscriber is among the candidates as they
    are split from it (the candidates themselves are not normalised),
    [Send] hands the raw payload to the writer, adds one to the
    transferred count and the length of the raw payload to the transferred
    bytes, and leaves the filtered counters alone. *)
Theorem Send_transfers (RBACAllowList : string) (cs : ConnBehaviour)
    (l : listener) (r : Record_) (w : World) (L : string) :
  GetIn (Data r) ["kubernetes"; "labels"; RBACAllowList]%string = VString L ->
  In (normalize (Username (usrInfo l))) (strings.Split L ","%char) ->
  exists w',
    Send RBACAllowList cs l r w = (Returned tt, w') /\
    trace w' = trace w ++ frame_trace cs l (RawData r) /\
    (nextWriter_err cs = None ->
     written (Conn l) (trace w') = written (Conn l) (trace w) ++ [RawData r]) /\
    log_transferred (counters w') = log_transferred (counters w) + 1 /\
    bytes_transferred (counters w') =
      bytes_transferred (counters w) + len (RawData r) /\
    log_filtered (counters w') = log_filtered (counters w) /\
    bytes_filtered (counters w') = bytes_filtered (counters w).
Proof.
  intros HL Hin. eexists. split; [now apply Send_allowed with L|].
  cbn [counters trace]. split; [reflexivity|]. split.
  - intros Hw. now rewrite written_app, written_frame_trace.
  - unfold count_transferred. simpl. auto.
Qed.

(** C1, amended. Before the membership test only the subscriber's own
    identity is normalised, every colon replaced by an underscore; the
    candidates split from the access list on commas are compared as they
    are. The record is delivered iff the normalised identity is an element
    of the split list, and it is withheld, the raw payload never handed to
    the writer, iff it is not. *)
Theorem Send_delivers_iff (RBACAllowList : string) (cs : ConnBehaviour)
    (l : listener) (r : Record_) (w : World) (L : string) :
  GetIn (Data r) ["kubernetes"; "labels"; RBACAllowList]%string = VString L ->
  (delivered w (snd (Send RBACAllowList cs l r w)) cs l r <->
   In (normalize (Username (usrInfo l))) (strings.Split L ","%char)) /\
  (withheld w (snd (Send RBACAllowList cs l r w)) cs l r <->
   ~ In (normalize (Username (usrInfo l))) (strings.Split L ","%char)).
Proof.
  intros HL.
  assert (forall m, count_filtered r m <> count_transferred r m) as Hdiff.
  { intros m H. apply (f_equal log_filtered) in H. simpl in H. lia. }
  destruct (in_dec string_dec (normalize (Username (usrInfo l)))
              (strings.Split L ","%char)) as [Hin|Hout].
  - rewrite (Send_allowed RBACAllowList cs l r w L HL Hin).
    unfold delivered, withheld. cbn [snd counters trace]. split.
    + split; [intros _; exact Hin | intros _; split; reflexivity].
    + split; [|intros Hout; contradiction].
      intros [Hcount _]. symmetry in Hcount. now apply Hdiff in Hcount.
  - unfold delivered, withheld.
    destruct (GetIn (Data r) ["kubernetes"; "pod_name"]%string) eqn:Hp.
    1-3, 5-6:
      rewrite (Send_denied_panics RBACAllowList cs l r w L HL Hout)
        by (rewrite Hp; reflexivity);
      cbn [snd counters trace]; split;
      [ split; [intros [Hcount _]; now apply Hdiff in Hcount | contradiction]
      | split; [intros _; exact Hout | intros _; split; reflexivity] ].
    rewrite (Send_denied RBACAllowList cs l r w L s HL Hout Hp).
    cbn [snd counters trace]. split.
    + split; [intros [Hcount _]; now apply Hdiff in Hcount | contradiction].
    + split; [intros _; exact Hout | intros _; split; reflexivity].
Qed.

(** C10. On the permission-denied branch the pod name is read with the
    one-result type assertion: when the access-list field is a string, the
    subscriber is not in it and the pod-name field is absent or not a
    string, [Send] panics after counting the record as filtered and writes
    nothing; when the pod-name field is a string it returns, and the
    payload of the frame is the permission-denied one. *)
Theorem Send_denied_pod_name (RBACAllowList : string) (cs : ConnBehaviour)
    (l : listener) (r : Record_) (w : World) (L : string) :
  GetIn (Data r) ["kubernetes"; "labels"; RBACAllowList]%string = VString L ->
  ~ In (normalize (Username (usrInfo l))) (strings.Split L ","%char) ->
  (is_string (GetIn (Data r) ["kubernetes"; "pod_name"]%string) = false ->
   exists msg,
     Send RBACAllowList cs l r w =
     (Panicked msg, mkWorld (count_filtered r (counters w)) (trace w))) /\
  (forall pod,
      GetIn (Data r) ["kubernetes"; "pod_name"]%string = VString pod ->
      Send RBACAllowList cs l r w =
      (Returned tt,
       mkWorld (count_filtered r (counters w))
               (trace w ++
                frame_trace cs l (denied_payload pod (Username (usrInfo l)))))).
Proof.
  intros HL Hout. split.
  - intros Hpod. eexists. now apply Send_denied_panics with L.
  - intros pod Hpod. exact (Send_denied RBACAllowList cs l r w L pod HL Hout Hpod).
Qed.

(** C6. Once [Send] has its payload, a failure of [NextWriter], of
    [Write] or of [Close] is logged with its error, followed by the [go]
    statement that unregisters the listener, and [Send] returns; when
    the three calls succeed the frame is written and no [go] statement
    runs. *)
Theorem Send_write_failure (RBACAllowList : string) (cs : ConnBehaviour)
    (l : listener) (r : Record_) (w : World) (L : string) :
  GetIn (Data r) ["kubernetes"; "labels"; RBACAllowList]%string = VString L ->
  In (normalize (Username (usrInfo l))) (strings.Split L ","%char) \/
  is_string (GetIn (Data r) ["kubernetes"; "pod_name"]%string) = true ->
  exists m data,
    (forall err, nextWriter_err cs = Some err ->
       Send RBACAllowList cs l r w =
       (Returned tt,
        mkWorld m (trace w ++
          [EvNextWriter (Conn l) BinaryMessage;
           EvLog "an error occurred while getting next writer for websocket connection" (Some err);
           EvGo (GoUnregister l)]))) /\
    (forall err, nextWriter_err cs = None -> write_err cs = Some err ->
       Send RBACAllowList cs l r w =
       (Returned tt,
        mkWorld m (trace w ++
          [EvNextWriter (Conn l) BinaryMessage;
           EvWrite (Conn l) data;
           EvLog "an error occurred while writing record data to websocket connection" (Some err);
           EvGo (GoUnregister l)]))) /\
    (forall err, nextWriter_err cs = None -> write_err cs = None ->
       close_err cs = Some err ->
       Send RBACAllowList cs l r w =
       (Returned tt,
        mkWorld m (trace w ++
          [EvNextWriter (Conn l) BinaryMessage;
           EvWrite (Conn l) data;
           EvClose (Conn l);
           EvLog "an error occurred while flushing frame to websocket connection" (Some err);
           EvGo (GoUnregister l)]))) /\
    (nextWriter_err cs = None -> write_err cs = None -> close_err cs = None ->
       Send RBACAllowList cs l r w =
       (Returned tt,
        mkWorld m (trace w ++
          [EvNextWriter (Conn l) BinaryMessage;
           EvWrite (Conn l) data;
           EvClose (Conn l)]))).
Proof.
  intros HL Hreach.
  assert (exists m data,
             Send RBACAllowList cs l r w =
             (Returned tt, mkWorld m (trace w ++ frame_trace cs l data)))
    as (m & data & ->).
  { destruct (in_dec string_dec (normalize (Username (usrInfo l)))
                (strings.Split L ","%char)) as [Hin|Hout].
    - do 2 eexists. now apply Send_allowed with L.
    - destruct Hreach as [Hin|Hpod]; [contradiction|].
      destruct (GetIn (Data r) ["kubernetes"; "pod_name"]%string) eqn:Hp;
        try discriminate Hpod.
      do 2 eexists. exact (Send_denied RBACAllowList cs l r w L s HL Hout Hp). }
  exists m, data. unfold frame_trace.
  repeat split; intros; repeat match goal with H : _ = _ |- _ => rewrite H end;
    reflexivity.
Qed.

(** ** The admission handler *)

Lemma Header_Get_absent (h : gmap string (list string)) (key : string) :
  h !! key = None -> Header_Get h key = EmptyString.
Proof. intros H. unfold Header_Get. now rewrite H. Qed.

Lemma split_cons {A : Type} (a x : A) (t pre post : list A) :
  a :: t = pre ++ x :: post ->
  (pre = [] /\ a = x /\ t = post) \/
  (exists pre', pre = a :: pre' /\ t = pre' ++ x :: post).
Proof.
  destruct pre as [|b pre']; simpl; intros [= -> ->].
  - now left.
  - right. now exists pre'.
Qed.

Lemma split_nil {A : Type} (x : A) (pre post : list A) :
  [] = pre ++ x :: post -> False.
Proof. destruct pre; discriminate. Qed.

Ltac split_trace H :=
  repeat
    (apply split_cons in H as [(-> & Hhead & <-) | (? & -> & H)];
     [try discriminate Hhead|]);
  try (now apply split_nil in H).

Section Admission.

Variable AuthHeaderKey : string.
Variables (env : Env) (r : Request) (w : World).

Local Abbreviation authToken := (Header_Get (Header r) AuthHeaderKey).

Lemma handler_no_token :
  authToken = EmptyString ->
  Listen_handler AuthHeaderKey env r w =
  (Returned tt,
   mkWorld (metrics.Listeners MListenerRejected
              (metrics.Listeners MListenerTotal (counters w)))
           (trace w ++
            [EvLog "new listener" None;
             EvHttpError "missing authentication token" StatusForbidden])).
Proof.
  intros H. unfold Listen_handler. rewrite H.
  run_go. cbn [String.eqb]. now rewrite <- !app_assoc.
Qed.

Lemma handler_auth_failed (err : error) :
  authToken <> EmptyString ->
  Authenticate env authToken = inr err ->
  Listen_handler AuthHeaderKey env r w =
  (Returned tt,
   mkWorld (metrics.Listeners MListenerRejected
              (metrics.Listeners MListenerTotal (counters w)))
           (trace w ++
            [EvLog "new listener" None;
             EvAuthenticate authToken;
             EvHttpError err StatusInternalServerError])).
Proof.
  intros H Hauth. unfold Listen_handler.
  apply String.eqb_neq in H. rewrite H, Hauth.
  run_go. now rewrite <- !app_assoc.
Qed.

Lemma handler_bad_flow (usr : UserInfo) (res : FlowReference) (err : error) :
  authToken <> EmptyString ->
  Authenticate env authToken = inl usr ->
  ExtractFlow r = (res, Some err) ->
  Listen_handler AuthHeaderKey env r w =
  (Returned tt,
   mkWorld (metrics.Listeners MListenerTotal (counters w))
           (trace w ++
            [EvLog "new listener" None;
             EvAuthenticate authToken;
             EvHttpError err StatusNotFound])).
Proof.
  intros H Hauth Hflow. unfold Listen_handler.
  apply String.eqb_neq in H. rewrite H, Hauth, Hflow.
  run_go. now rewrite <- !app_assoc.
Qed.

Lemma handler_upgrade_failed (usr : UserInfo) (nn : FlowReference) (err : error) :
  authToken <> EmptyString ->
  Authenticate env authToken = inl usr ->
  ExtractFlow r = (nn, None) ->
  Upgrade env r = inr err ->
  Listen_handler AuthHeaderKey env r w =
  (Returned tt,
   mkWorld (metrics.Listeners MListenerTotal (counters w))
           (trace w ++
            [EvLog "new listener" None;
             EvAuthenticate authToken;
             EvUpgrade;
             EvLog "failed to upgrade connection" (Some err)])).
Proof.
  intros H Hauth Hflow Hup. unfold Listen_handler.
  apply String.eqb_neq in H. rewrite H, Hauth, Hflow, Hup.
  run_go. now rewrite <- !app_assoc.
Qed.

Lemma handler_admitted (usr : UserInfo) (nn : FlowReference) (wsConn : ConnHandle) :
  authToken <> EmptyString ->
  Authenticate env authToken = inl usr ->
  ExtractFlow r = (nn, None) ->
  Upgrade env r = inl wsConn ->
  Listen_handler AuthHeaderKey env r w =
  (Returned tt,
   mkWorld (metrics.Listeners MListenerApproved
              (metrics.Listeners MListenerTotal (counters w)))
           (trace w ++
            [EvLog "new listener" None;
             EvAuthenticate authToken;
             EvUpgrade;
             EvLog "successful websocket upgrade" None;
             EvRegister (mklistener wsConn nn usr);
             EvGo (GoReadLoop wsConn);
             EvSetCloseHandler wsConn (mklistener wsConn nn usr)])).
Proof.
  intros H Hauth Hflow Hup. unfold Listen_handler.
  apply String.eqb_neq in H. rewrite H, Hauth, Hflow, Hup.
  run_go. now rewrite <- !app_assoc.
Qed.

End Admission.

(** C7. In the trace of one admission, the upgrade is attempted only
    after the token was found, the authenticator was called on it and
    accepted it, and the flow was parsed; [Register] is called only after
    all of that and a successful upgrade, on the listener built from their
    results; and an attempt in which the token is missing, or the
    authenticator, the flow parsing or the upgrade fails, ends without any
    registry operation. *)
Theorem admission_order (AuthHeaderKey : string) (env : Env) (r : Request)
    (w : World) :
  let authToken := Header_Get (Header r) AuthHeaderKey in
  exists m evs,
    Listen_handler AuthHeaderKey env r w =
    (Returned tt, mkWorld m (trace w ++ evs)) /\
    (forall pre post, evs = pre ++ EvUpgrade :: post ->
       authToken <> EmptyString /\
       In (EvAuthenticate authToken) pre /\
       (exists usr, Authenticate env authToken = inl usr) /\
       (exists nn, ExtractFlow r = (nn, None))) /\
    (forall pre l post, evs = pre ++ EvRegister l :: post ->
       authToken <> EmptyString /\
       In (EvAuthenticate authToken) pre /\
       In EvUpgrade pre /\
       Authenticate env authToken = inl (usrInfo l) /\
       ExtractFlow r = (flow l, None) /\
       Upgrade env r = inl (Conn l)) /\
    (authToken = EmptyString \/
     (exists err, Authenticate env authToken = inr err) \/
     (exists err, snd (ExtractFlow r) = Some err) \/
     (exists err, Upgrade env r = inr err) ->
     forallb (fun e => negb (registry_op e)) evs = true).
Proof.
  intros authToken.
  destruct (string_dec authToken EmptyString) as [Htok|Htok].
  { do 2 eexists. split; [exact (handler_no_token _ env r w Htok)|].
    repeat split; intros; split_trace H. }
  destruct (Authenticate env authToken) as [usr|err] eqn:Hauth.
  2:{ do 2 eexists.
      split; [exact (handler_auth_failed _ env r w err Htok Hauth)|].
      repeat split; intros; split_trace H. }
  destruct (ExtractFlow r) as [nn [err|]] eqn:Hflow.
  { do 2 eexists.
    split; [exact (handler_bad_flow _ env r w usr nn err Htok Hauth Hflow)|].
    repeat split; intros; split_trace H. }
  destruct (Upgrade env r) as [wsConn|err] eqn:Hup.
  2:{ do 2 eexists.
      split;
        [exact (handler_upgrade_failed _ env r w usr nn err Htok Hauth Hflow Hup)|].
      split; [|split].
      - intros pre post H. split_trace H.
        repeat split; simpl; eauto.
      - intros pre l post H. split_trace H.
      - reflexivity. }
  do 2 eexists.
  split; [exact (handler_admitted _ env r w usr nn wsConn Htok Hauth Hflow Hup)|].
  split; [|split].
  - intros pre post H. split_trace H. repeat split; simpl; eauto.
  - intros pre l post H. split_trace H.
    injection Hhead as <-. repeat split; simpl; auto.
  - intros [H|[[e H]|[[e H]|[e H]]]]; try contradiction; discriminate H.
Qed.

(** C8. An absent (or empty) token header is answered with status 403
    and counted as rejected; a failing authenticator with status 500, and
    counted as rejected; a failing flow parsing with status 404, and the
    rejected counter stays; an admission adds exactly one to the approved
    counter. *)
Theorem admission_responses (AuthHeaderKey : string) (env : Env) (r : Request)
    (w : World) :
  let authToken := Header_Get (Header r) AuthHeaderKey in
  let w' := snd (Listen_handler AuthHeaderKey env r w) in
  (authToken = EmptyString ->
   trace w' =
     trace w ++
     [EvLog "new listener" None;
      EvHttpError "missing authentication token" StatusForbidden] /\
   listener_rejected (counters w') = listener_rejected (counters w) + 1 /\
   listener_approved (counters w') = listener_approved (counters w)) /\
  (forall err,
      authToken <> EmptyString ->
      Authenticate env authToken = inr err ->
      trace w' =
        trace w ++
        [EvLog "new listener" None;
         EvAuthenticate authToken;
         EvHttpError err StatusInternalServerError] /\
      listener_rejected (counters w') = listener_rejected (counters w) + 1 /\
      listener_approved (counters w') = listener_approved (counters w)) /\
  (forall usr res err,
      authToken <> EmptyString ->
      Authenticate env authToken = inl usr ->
      ExtractFlow r = (res, Some err) ->
      trace w' =
        trace w ++
        [EvLog "new listener" None;
         EvAuthenticate authToken;
         EvHttpError err StatusNotFound] /\
      listener_rejected (counters w') = listener_rejected (counters w) /\
      listener_approved (counters w') = listener_approved (counters w)) /\
  (forall usr nn wsConn,
      authToken <> EmptyString ->
      Authenticate env authToken = inl usr ->
      ExtractFlow r = (nn, None) ->
      Upgrade env r = inl wsConn ->
      In (EvRegister (mklistener wsConn nn usr)) (trace w') /\
      listener_approved (counters w') = listener_approved (counters w) + 1 /\
      listener_rejected (counters w') = listener_rejected (counters w)).
Proof.
  intros authToken w'. subst w'. split; [|split; [|split]].
  - intros Htok. rewrite (handler_no_token _ env r w Htok). simpl. auto.
  - intros err Htok Hauth.
    rewrite (handler_auth_failed _ env r w err Htok Hauth). simpl. auto.
  - intros usr res err Htok Hauth Hflow.
    rewrite (handler_bad_flow _ env r w usr res err Htok Hauth Hflow).
    simpl. auto.
  - intros usr nn wsConn Htok Hauth Hflow Hup.
    rewrite (handler_admitted _ env r w usr nn wsConn Htok Hauth Hflow Hup).
    cbn [snd trace counters]. split; [|simpl; auto].
    apply in_or_app. right. simpl. tauto.
Qed.

(** ** The earlier revision *)

(** The earlier [ExtractFlow] accepts [flow, namespace, name], and
    [clusterflow, name] followed by anything, and nothing else. *)
Lemma Part000_ExtractFlow_shapes (req : Request) :
  (forall ns name,
      path_elts (Path req) = ["flow"%string; ns; name] ->
      Part000.ExtractFlow req = (Part000.mkNamespacedName ns name, None)) /\
  (forall name rest,
      path_elts (Path req) = "clusterflow"%string :: name :: rest ->
      Part000.ExtractFlow req =
      (Part000.mkNamespacedName EmptyString name, None)) /\
  (forall res,
      Part000.ExtractFlow req = (res, None) ->
      (exists ns name, path_elts (Path req) = ["flow"%string; ns; name]) \/
      (exists name rest,
          path_elts (Path req) = "clusterflow"%string :: name :: rest)).
Proof.
  unfold Part000.ExtractFlow. split; [|split].
  - intros ns name ->. reflexivity.
  - intros name rest ->. cbn [nth].
    destruct (Z.ltb_spec (Z.of_nat (length ("clusterflow"%string :: name :: rest))) 2)
      as [Hlt|_]; [simpl length in Hlt; lia | reflexivity].
  - intros res.
    destruct (path_elts (Path req)) as [|a [|b rest]]; try discriminate.
    destruct (Z.ltb_spec (Z.of_nat (length (a :: b :: rest))) 2) as [Hlt|_];
      [discriminate|].
    cbn [nth].
    destruct (String.eqb_spec a "flow") as [->|_].
    + destruct (Z.eqb_spec (Z.of_nat (length ("flow"%string :: b :: rest))) 3)
        as [Hlen|_]; [|discriminate].
      destruct rest as [|c [|d rest]]; simpl length in Hlen; try lia.
      intros _. left. eauto.
    + destruct (String.eqb_spec a "clusterflow") as [->|_]; [|discriminate].
      intros _. right. eauto.
Qed.

(** The earlier handler attempts the upgrade on every request, before
    the flow is parsed. *)
Lemma Part000_upgrade_first (Upgrade : Request -> ConnHandle + error)
    (r : Request) :
  exists rest,
    Part000.Listen_handler Upgrade r =
    Part000.CLog "new listener" None :: Part000.CUpgrade :: rest.
Proof. unfold Part000.Listen_handler. eauto. Qed.

Example Part000_upgrade_then_not_found :
  Part000.Listen_handler (fun _ => inl 7%nat) (mkRequest ∅ "/pod/ns/name") =
  [Part000.CLog "new listener" None;
   Part000.CUpgrade;
   Part000.CLog "successful websocket upgrade" None;
   Part000.CHttpError "unknown flow type in listener reg URL" StatusNotFound].
Proof. reflexivity. Qed.

(** ** The claims at concrete inputs *)

(** C2 as stated fails: the shape [clusterflow, name] is a parse error,
    an unrecognized first segment is accepted as a Kind, and segments
    after the third are ignored. The path [/clusterflow/a/b], which is
    neither of the two shapes, is accepted by both revisions. *)
Lemma ExtractFlow_not_parse_spec :
  ExtractFlow (mkRequest ∅ "/clusterflow/a/b") =
    (mkFlowReference ClusterFlow "a" "b", None) /\
  Part000.ExtractFlow (mkRequest ∅ "/clusterflow/a/b") =
    (Part000.mkNamespacedName EmptyString "a", None) /\
  parse_spec (path_elts "/clusterflow/a/b") = None /\
  ExtractFlow (mkRequest ∅ "/clusterflow/name") =
    (FlowReference_zero, Some "error parsing listener reg URL"%string) /\
  parse_spec (path_elts "/clusterflow/name") =
    Some (mkFlowReference ClusterFlow EmptyString "name") /\
  ExtractFlow (mkRequest ∅ "/pod/ns/name") =
    (mkFlowReference "pod" "ns" "name", None) /\
  parse_spec (path_elts "/pod/ns/name") = None /\
  ExtractFlow (mkRequest ∅ "/flow/ns/name/more") =
    (mkFlowReference Flow "ns" "name", None) /\
  parse_spec (path_elts "/flow/ns/name/more") = None /\
  ExtractFlow_result (mkRequest ∅ "/clusterflow/name") <>
    parse_spec (path_elts "/clusterflow/name").
Proof. repeat split; try reflexivity. vm_compute. discriminate. Qed.

Lemma ExtractFlow_shapes_witness :
  ExtractFlow (mkRequest ∅ "/flow/ns/name") =
    (mkFlowReference Flow "ns" "name", None) /\
  ExtractFlow (mkRequest ∅ "/clusterflow/name") =
    (FlowReference_zero, Some (errors_New "error parsing listener reg URL")).
Proof.
  split.
  - destruct (ExtractFlow_shapes (mkRequest ∅ "/flow/ns/name"))
      as (_ & Hflow & _ & _).
    apply Hflow. reflexivity.
  - destruct (ExtractFlow_shapes (mkRequest ∅ "/clusterflow/name"))
      as (_ & _ & Hshort & _).
    apply Hshort. vm_compute. lia.
Defined.

(** C9 as stated fails in both directions: a parsed ClusterFlow
    reference has a namespace, and a parsed Flow reference can have none. *)
Lemma ExtractFlow_breaks_namespace_invariant :
  ExtractFlow (mkRequest ∅ "/clusterflow/ns/name") =
    (mkFlowReference ClusterFlow "ns" "name", None) /\
  ~ namespace_invariant (mkFlowReference ClusterFlow "ns" "name") /\
  ExtractFlow (mkRequest ∅ "/flow//name") =
    (mkFlowReference Flow EmptyString "name", None) /\
  ~ namespace_invariant (mkFlowReference Flow EmptyString "name").
Proof.
  unfold namespace_invariant. repeat split; try reflexivity; simpl.
  - intros [_ H]. discriminate (H eq_refl).
  - intros [H _]. discriminate (H eq_refl).
Qed.

Lemma ExtractFlow_fields_witness :
  Kind (mkFlowReference Flow "ns" "name") = "flow"%string /\
  Namespace (mkFlowReference Flow "ns" "name") = "ns"%string /\
  Name (mkFlowReference Flow "ns" "name") = "name"%string /\
  (Namespace (mkFlowReference Flow "ns" "name") = EmptyString <->
   "ns"%string = EmptyString).
Proof.
  apply (ExtractFlow_fields (mkRequest ∅ "/flow/ns/name")
           (mkFlowReference Flow "ns" "name")).
  reflexivity.
Defined.

(** C1 as stated fails: for the identity [a:b] and the access list
    [a:b] the normalised identity is among the normalised candidates, and
    the record is not delivered: the candidate keeps its colon, the test
    fails and the permission-denied payload is written. *)
Lemma Send_candidates_not_normalized :
  spec_allows "a:b" "a:b" = true /\
  normalize "a:b" = "a_b"%string /\
  strings.Split "a:b" ","%char = ["a:b"%string] /\
  Send sample_label healthy (sample_listener "a:b")
       (sample_record (Some (VString "a:b")) (Some (VString "pod-1")))
       World_zero =
  (Returned tt,
   mkWorld (mkMetrics 0 0 0 0 0 1 0 5)
           [EvNextWriter 7%nat 2;
            EvWrite 7%nat (denied_payload "pod-1" "a:b");
            EvClose 7%nat]) /\
  ~ delivered World_zero
      (snd (Send sample_label healthy (sample_listener "a:b")
              (sample_record (Some (VString "a:b")) (Some (VString "pod-1")))
              World_zero))
      healthy (sample_listener "a:b")
      (sample_record (Some (VString "a:b")) (Some (VString "pod-1"))) /\
  withheld World_zero
    (snd (Send sample_label healthy (sample_listener "a:b")
            (sample_record (Some (VString "a:b")) (Some (VString "pod-1")))
            World_zero))
    healthy (sample_listener "a:b")
    (sample_record (Some (VString "a:b")) (Some (VString "pod-1"))).
Proof.
  split; [vm_compute; reflexivity|].
  split; [vm_compute; reflexivity|].
  split; [vm_compute; reflexivity|].
  split; [vm_compute; reflexivity|].
  split.
  - intros [H _]. vm_compute in H. discriminate H.
  - split; vm_compute; reflexivity.
Qed.

Lemma Send_delivers_iff_witness :
  delivered World_zero
    (snd (Send sample_label healthy (sample_listener "system:node:n1")
            (sample_record (Some (VString "alice,system_node_n1")) None)
            World_zero))
    healthy (sample_listener "system:node:n1")
    (sample_record (Some (VString "alice,system_node_n1")) None) /\
  withheld World_zero
    (snd (Send sample_label healthy (sample_listener "carol")
            (sample_record (Some (VString "alice,system_node_n1"))
               (Some (VString "pod-1")))
            World_zero))
    healthy (sample_listener "carol")
    (sample_record (Some (VString "alice,system_node_n1"))
       (Some (VString "pod-1"))).
Proof.
  split.
  - destruct (Send_delivers_iff sample_label healthy
                (sample_listener "system:node:n1")
                (sample_record (Some (VString "alice,system_node_n1")) None)
                World_zero "alice,system_node_n1")
      as [Hdelivered _].
    + vm_compute. reflexivity.
    + apply Hdelivered. vm_compute. right. left. reflexivity.
  - destruct (Send_delivers_iff sample_label healthy (sample_listener "carol")
                (sample_record (Some (VString "alice,system_node_n1"))
                   (Some (VString "pod-1")))
                World_zero "alice,system_node_n1")
      as [_ Hwithheld].
    + vm_compute. reflexivity.
    + apply Hwithheld. vm_compute. intros [H|[H|[]]]; discriminate H.
Defined.

(** C4 as stated fails: the normalised identity of
    [system:serviceaccount:ns:reader] is among the normalised candidates
    of a list that names it with its colons, and [Send] counts the record
    as filtered and writes the permission-denied payload, not the raw one. *)
Lemma Send_filters_colon_candidate :
  spec_allows "system:serviceaccount:ns:reader"
              "system:serviceaccount:ns:reader,admin" = true /\
  Send sample_label healthy (sample_listener "system:serviceaccount:ns:reader")
       (sample_record (Some (VString "system:serviceaccount:ns:reader,admin"))
                      (Some (VString "pod-1")))
       World_zero =
  (Returned tt,
   mkWorld (mkMetrics 0 0 0 0 0 1 0 5)
           [EvNextWriter 7%nat 2;
            EvWrite 7%nat
              (denied_payload "pod-1" "system:serviceaccount:ns:reader");
            EvClose 7%nat]) /\
  denied_payload "pod-1" "system:serviceaccount:ns:reader" <> sample_raw.
Proof.
  repeat split; try (vm_compute; reflexivity).
  vm_compute. discriminate.
Qed.

Lemma Send_transfers_witness :
  exists w',
    Send sample_label healthy (sample_listener "bob")
         (sample_record (Some (VString "alice,bob")) None) World_zero =
    (Returned tt, w') /\
    trace w' = [EvNextWriter 7%nat 2; EvWrite 7%nat sample_raw; EvClose 7%nat] /\
    log_transferred (counters w') = 1 /\
    bytes_transferred (counters w') = 5.
Proof.
  destruct (Send_transfers sample_label healthy (sample_listener "bob")
              (sample_record (Some (VString "alice,bob")) None) World_zero
              "alice,bob")
    as (w' & Hrun & Htrace & _ & Hlog & Hbytes & _).
  - vm_compute. reflexivity.
  - vm_compute. right. left. reflexivity.
  - exists w'. repeat split; assumption.
Defined.

(** C3 at a record that has the access list but no pod name, for a
    subscriber that is not in the list: [Send] counts the record as
    filtered and then panics in the type assertion on the pod name; no
    permission-denied payload is written. *)
Theorem Send_denied_without_pod_name :
  is_string (GetIn (Data (sample_record (Some (VString "alice,bob")) None))
               ["kubernetes"; "labels"; sample_label]%string) = true /\
  spec_allows "carol" "alice,bob" = false /\
  Send sample_label healthy (sample_listener "carol")
       (sample_record (Some (VString "alice,bob")) None) World_zero =
  (Panicked "interface conversion: interface {} is not string",
   mkWorld (mkMetrics 0 0 0 0 0 1 0 5) []).
Proof. repeat split; vm_compute; reflexivity. Qed.

Lemma Send_without_access_list_witness :
  exists w',
    Send sample_label healthy (sample_listener "bob")
         (sample_record None (Some (VString "pod-1"))) World_zero =
    (Returned tt, w') /\
    counters w' = Metrics_zero /\
    trace w' = [EvLog "RBAC list missing from log record" None] /\
    written 7%nat (trace w') = [].
Proof.
  apply (Send_without_access_list sample_label healthy (sample_listener "bob")
           (sample_record None (Some (VString "pod-1"))) World_zero).
  vm_compute. reflexivity.
Defined.

Lemma Send_denied_pod_name_witness :
  exists msg,
    Send sample_label healthy (sample_listener "carol")
         (sample_record (Some (VString "alice,bob")) (Some (VNumber 3)))
         World_zero =
    (Panicked msg, mkWorld (mkMetrics 0 0 0 0 0 1 0 5) []).
Proof.
  destruct (Send_denied_pod_name sample_label healthy (sample_listener "carol")
              (sample_record (Some (VString "alice,bob")) (Some (VNumber 3)))
              World_zero "alice,bob")
    as [Hpanic _].
  - vm_compute. reflexivity.
  - vm_compute. intros [H|[H|[]]]; discriminate H.
  - apply Hpanic. vm_compute. reflexivity.
Defined.

Lemma Send_write_failure_witness :
  exists m data,
    Send sample_label (mkConnBehaviour None (Some "broken pipe"%string) None)
         (sample_listener "bob")
         (sample_record (Some (VString "alice,bob")) None) World_zero =
    (Returned tt,
     mkWorld m
       [EvNextWriter 7%nat 2;
        EvWrite 7%nat data;
        EvLog "an error occurred while writing record data to websocket connection"
              (Some "broken pipe"%string);
        EvGo (GoUnregister (sample_listener "bob"))]).
Proof.
  destruct (Send_write_failure sample_label
              (mkConnBehaviour None (Some "broken pipe"%string) None)
              (sample_listener "bob")
              (sample_record (Some (VString "alice,bob")) None) World_zero
              "alice,bob")
    as (m & data & _ & Hwrite & _ & _).
  - vm_compute. reflexivity.
  - left. vm_compute. right. left. reflexivity.
  - exists m, data. exact (Hwrite "broken pipe"%string eq_refl eq_refl).
Defined.

Lemma admission_order_witness :
  Authenticate (sample_env true) "t0k3n" = inl (mkUserInfo "bob" "uid" []) /\
  ExtractFlow (sample_request ["t0k3n"%string] "/flow/ns/n") =
    (mkFlowReference Flow "ns" "n", None) /\
  Upgrade (sample_env true) (sample_request ["t0k3n"%string] "/flow/ns/n") =
    inl 7%nat.
Proof.
  destruct (admission_order sample_header (sample_env true)
              (sample_request ["t0k3n"%string] "/flow/ns/n") World_zero)
    as (m & evs & Hrun & _ & Hregister & _).
  vm_compute in Hrun. injection Hrun as _ <-.
  destruct (Hregister
              [EvLog "new listener" None;
               EvAuthenticate "t0k3n";
               EvUpgrade;
               EvLog "successful websocket upgrade" None]
              (mklistener 7%nat (mkFlowReference Flow "ns" "n")
                 (mkUserInfo "bob" "uid" []))
              [EvGo (GoReadLoop 7%nat);
               EvSetCloseHandler 7%nat
                 (mklistener 7%nat (mkFlowReference Flow "ns" "n")
                    (mkUserInfo "bob" "uid" []))]
              eq_refl)
    as (_ & _ & _ & Hauth & Hflow & Hup).
  repeat split; assumption.
Defined.

Lemma admission_responses_witness :
  trace (snd (Listen_handler sample_header (sample_env true)
                (mkRequest ∅ "/flow/ns/n") World_zero)) =
    [EvLog "new listener" None;
     EvHttpError "missing authentication token" StatusForbidden] /\
  listener_rejected
    (counters (snd (Listen_handler sample_header (sample_env true)
                      (mkRequest ∅ "/flow/ns/n") World_zero))) = 1 /\
  listener_approved
    (counters (snd (Listen_handler sample_header (sample_env true)
                      (sample_request ["t0k3n"%string] "/flow/ns/n")
                      World_zero))) = 1.
Proof.
  destruct (admission_responses sample_header (sample_env true)
              (mkRequest ∅ "/flow/ns/n") World_zero)
    as (Hmissing & _).
  destruct (Hmissing eq_refl) as (Htrace & Hrejected & _).
  destruct (admission_responses sample_header (sample_env true)
              (sample_request ["t0k3n"%string] "/flow/ns/n") World_zero)
    as (_ & _ & _ & Hadmit).
  destruct (Hadmit (mkUserInfo "bob" "uid" []) (mkFlowReference Flow "ns" "n")
              7%nat)
    as (_ & Happroved & _).
  - vm_compute. discriminate.
  - vm_compute. reflexivity.
  - vm_compute. reflexivity.
  - vm_compute. reflexivity.
  - repeat split; assumption.
Defined.

Example admission_rejections :
  Listen_handler sample_header (sample_env true)
    (sample_request ["wrong"%string] "/flow/ns/n") World_zero =
  (Returned tt,
   mkWorld (mkMetrics 1 1 0 0 0 0 0 0)
     [EvLog "new listener" None;
      EvAuthenticate "wrong";
      EvHttpError "invalid token" StatusInternalServerError]) /\
  Listen_handler sample_header (sample_env true)
    (sample_request ["t0k3n"%string] "/clusterflow/n") World_zero =
  (Returned tt,
   mkWorld (mkMetrics 1 0 0 0 0 0 0 0)
     [EvLog "new listener" None;
      EvAuthenticate "t0k3n";
      EvHttpError "error parsing listener reg URL" StatusNotFound]) /\
  Listen_handler sample_header (sample_env false)
    (sample_request ["t0k3n"%string] "/flow/ns/n") World_zero =
  (Returned tt,
   mkWorld (mkMetrics 1 0 0 0 0 0 0 0)
     [EvLog "new listener" None;
      EvAuthenticate "t0k3n";
      EvUpgrade;
      EvLog "failed to upgrade connection" (Some "bad handshake"%string)]).
Proof. repeat split; vm_compute; reflexivity. Qed.

(** * Further properties of the listener *)

(** ** Paths and segments *)

Lemma TrimLeft_slash_cons (s : string) :
  strings.TrimLeft (String "/" s) "/" = strings.TrimLeft s "/".
Proof. reflexivity. Qed.

Lemma TrimLeft_slash_other (c : ascii) (s : string) :
  Ascii.eqb c "/" = false ->
  strings.TrimLeft (String c s) "/" = String c s.
Proof. intros H. simpl. now rewrite H. Qed.

Lemma TrimLeft_slash_head (s : string) :
  match strings.TrimLeft s "/" with
  | EmptyString => True
  | String c _ => Ascii.eqb c "/" = false
  end.
Proof.
  induction s as [|c s IH]; [exact I|].
  destruct (Ascii.eqb c "/") eqn:E.
  - apply Ascii.eqb_eq in E as ->. exact IH.
  - rewrite TrimLeft_slash_other by exact E. exact E.
Qed.

Lemma Split_no_sep (a : string) (sep : ascii) :
  contains_byte sep a = false -> strings.Split a sep = [a].
Proof.
  induction a as [|c a IH]; simpl; [reflexivity|].
  intros H. apply orb_false_iff in H as [Hc Ha].
  rewrite Hc, (IH Ha). reflexivity.
Qed.

Lemma Split_app_sep (a b : string) (sep : ascii) :
  contains_byte sep a = false ->
  strings.Split (a +:+ String sep b) sep = a :: strings.Split b sep.
Proof.
  induction a as [|c a IH]; simpl.
  - intros _. now rewrite Ascii.eqb_refl.
  - intros H. apply orb_false_iff in H as [Hc Ha].
    rewrite Hc, (IH Ha). reflexivity.
Qed.

Lemma Split_length (s : string) (sep : ascii) :
  length (strings.Split s sep) = S (count_byte sep s).
Proof.
  induction s as [|c s IH]; simpl; [reflexivity|].
  destruct (Ascii.eqb c sep); simpl.
  - now rewrite IH.
  - destruct (strings.Split s sep) as [|elt elts] eqn:E; simpl in *; lia.
Qed.

Lemma Split_pieces (s : string) (sep : ascii) :
  Forall (fun p => contains_byte sep p = false) (strings.Split s sep).
Proof.
  induction s as [|c s IH]; simpl.
  - now constructor.
  - destruct (Ascii.eqb c sep) eqn:E.
    + now constructor.
    + destruct (strings.Split s sep) as [|elt elts].
      * constructor; [simpl; now rewrite E | constructor].
      * inversion IH as [|? ? Helt Helts]; subst.
        constructor; [simpl; now rewrite E, Helt | exact Helts].
Qed.

Lemma path_elts_flow_path (kind ns name : string) :
  kind <> EmptyString ->
  contains_byte "/" kind = false ->
  contains_byte "/" ns = false ->
  contains_byte "/" name = false ->
  path_elts (flow_path kind ns name) = [kind; ns; name].
Proof.
  intros Hne Hkind Hns Hname. unfold path_elts, flow_path.
  change ("/" +:+ kind +:+ "/" +:+ ns +:+ "/" +:+ name)
    with (String "/" (kind +:+ String "/" (ns +:+ String "/" name))).
  rewrite TrimLeft_slash_cons.
  destruct kind as [|c kind]; [contradiction|].
  pose proof Hkind as Hc. simpl in Hc. apply orb_false_iff in Hc as [Hc _].
  change (String c kind +:+ String "/" (ns +:+ String "/" name))
    with (String c (kind +:+ String "/" (ns +:+ String "/" name))).
  rewrite TrimLeft_slash_other by exact Hc.
  change (String c (kind +:+ String "/" (ns +:+ String "/" name)))
    with (String c kind +:+ String "/" (ns +:+ String "/" name)).
  rewrite (Split_app_sep _ _ _ Hkind), (Split_app_sep _ _ _ Hns).
  now rewrite (Split_no_sep _ _ Hname).
Qed.

(** X1. Building a path from a kind, a namespace and a name and parsing
    it gives the three back: for a non-empty kind, and a kind, namespace
    and name without a slash, [ExtractFlow] of [/kind/namespace/name] is
    [{kind, namespace, name}], whatever the kind is and also for an empty
    namespace or name. *)
Theorem ExtractFlow_of_flow_path (h : gmap string (list string))
    (kind ns name : string) :
  kind <> EmptyString ->
  contains_byte "/" kind = false ->
  contains_byte "/" ns = false ->
  contains_byte "/" name = false ->
  ExtractFlow (mkRequest h (flow_path kind ns name)) =
  (mkFlowReference kind ns name, None).
Proof.
  intros Hne Hkind Hns Hname.
  apply ExtractFlow_three with (rest := []). simpl.
  now apply path_elts_flow_path.
Qed.

(** X2. [ExtractFlow] reads the path only, and leading slashes do not
    count: a request with one more slash in front, and any header, parses
    to the same result. *)
Theorem ExtractFlow_leading_slash (h h' : gmap string (list string))
    (p : string) :
  ExtractFlow (mkRequest h (String "/" p)) = ExtractFlow (mkRequest h' p).
Proof. unfold ExtractFlow, path_elts. simpl Path. now rewrite TrimLeft_slash_cons. Qed.

(** X3. [ExtractFlow] succeeds exactly when the path, without its
    leading slashes, holds at least two slashes. *)
Theorem ExtractFlow_ok_iff_two_slashes (req : Request) :
  snd (ExtractFlow req) = None <->
  (2 <= count_byte "/" (strings.TrimLeft (Path req) "/"))%nat.
Proof.
  unfold ExtractFlow, path_elts. rewrite Split_length.
  destruct (Z.ltb_spec (Z.of_nat (S (count_byte "/" (strings.TrimLeft (Path req) "/")))) 3);
    simpl; split; intros; try discriminate; try reflexivity; lia.
Qed.

(** X4. The fields of a parsed FlowReference hold no slash, and its Kind
    is not empty (its Namespace and Name can be). *)
Theorem ExtractFlow_fields_clean (req : Request) (res : FlowReference) :
  ExtractFlow req = (res, None) ->
  Kind res <> EmptyString /\
  contains_byte "/" (Kind res) = false /\
  contains_byte "/" (Namespace res) = false /\
  contains_byte "/" (Name res) = false.
Proof.
  intros H. apply ExtractFlow_ok_inv in H as [rest Helts].
  unfold path_elts in Helts.
  pose proof (Split_pieces (strings.TrimLeft (Path req) "/") "/") as Hall.
  rewrite Helts in Hall.
  inversion Hall as [|? ? Hk Hall1]; subst.
  inversion Hall1 as [|? ? Hn Hall2]; subst.
  inversion Hall2 as [|? ? Hm _]; subst.
  split; [|auto].
  pose proof (TrimLeft_slash_head (Path req)) as Hhead.
  destruct (strings.TrimLeft (Path req) "/") as [|c t]; [discriminate Helts|].
  simpl in Helts. rewrite Hhead in Helts.
  destruct (strings.Split t "/"); injection Helts as <- _; discriminate.
Qed.

(** X5. What the earlier [ExtractFlow] accepts as a flow, the later one
    accepts with the same namespace and name and the Kind [Flow]; of the
    paths the earlier one accepts, the later one rejects exactly those of
    two segments, the shape [clusterflow, name]. *)
Theorem ExtractFlow_revisions (req : Request) (nn : Part000.NamespacedName) :
  Part000.ExtractFlow req = (nn, None) ->
  (nth 0 (path_elts (Path req)) EmptyString = "flow"%string ->
   ExtractFlow req =
   (mkFlowReference Flow (Part000.Namespace nn) (Part000.Name nn), None)) /\
  (snd (ExtractFlow req) <> None <->
   exists name, path_elts (Path req) = ["clusterflow"%string; name]).
Proof.
  intros Hold.
  destruct (Part000_ExtractFlow_shapes req) as (Hflow & Hcluster & Hinv).
  destruct (Hinv nn Hold) as [(ns & name & Helts)|(name & rest & Helts)].
  - rewrite (Hflow ns name Helts) in Hold. injection Hold as <-.
    split.
    + intros _. now apply ExtractFlow_three with (rest := []).
    + rewrite (ExtractFlow_three req "flow" ns name [] Helts). simpl.
      split; [congruence|]. intros [n Hn]. rewrite Helts in Hn. discriminate.
  - rewrite (Hcluster name rest Helts) in Hold. injection Hold as <-.
    split.
    + rewrite Helts. discriminate.
    + destruct rest as [|c rest].
      * rewrite ExtractFlow_short by (rewrite Helts; simpl; lia).
        simpl. split; [eauto | discriminate].
      * rewrite (ExtractFlow_three req "clusterflow" name c rest Helts). simpl.
        split; [congruence|]. intros [n Hn]. rewrite Helts in Hn. discriminate.
Qed.

(** ** [SeekSlice] *)

Lemma SeekSlice_from_found (slice : list string) (str : string) (i n : Z) :
  SeekSlice_from i slice str = n -> n <> -1 -> 0 <= i ->
  i <= n < i + Z.of_nat (length slice) /\
  nth (Z.to_nat (n - i)) slice EmptyString = str /\
  (forall j, (j < Z.to_nat (n - i))%nat -> nth j slice EmptyString <> str).
Proof.
  revert i. induction slice as [|s rest IH]; intros i Hn Hfound Hi.
  - simpl in Hn. congruence.
  - simpl in Hn. destruct (String.eqb_spec s str) as [Heq|Hne].
    + subst n. replace (i - i) with 0 by lia.
      split; [simpl length; lia|]. split; [exact Heq|].
      intros j Hj. simpl in Hj. lia.
    + destruct (SeekSlice_from_lower rest str (i + 1)) as [Hm|Hlow];
        [congruence|].
      destruct (IH (i + 1) Hn Hfound ltac:(lia)) as (Hrange & Hnth & Hfirst).
      replace (Z.to_nat (n - i)) with (S (Z.to_nat (n - (i + 1)))) by lia.
      split; [simpl length; lia|]. split; [exact Hnth|].
      intros [|j] Hj; [exact Hne|]. apply Hfirst. lia.
Qed.

(** X6. A result of [SeekSlice] other than [-1] is a valid index: the
    element at it is the string, and no element before it is; the result
    is [-1] exactly when the string is not in the slice, in particular for
    the empty slice. *)
Theorem SeekSlice_first_index (slice : list string) (str : string) :
  (SeekSlice slice str = -1 <-> ~ In str slice) /\
  (SeekSlice slice str <> -1 ->
   0 <= SeekSlice slice str < Z.of_nat (length slice) /\
   nth (Z.to_nat (SeekSlice slice str)) slice EmptyString = str /\
   (forall j, (j < Z.to_nat (SeekSlice slice str))%nat ->
              nth j slice EmptyString <> str)).
Proof.
  split; [apply SeekSlice_missing|].
  intros Hfound.
  destruct (SeekSlice_from_found slice str 0 (SeekSlice slice str) eq_refl Hfound)
    as (Hrange & Hnth & Hfirst); [lia|].
  rewrite Z.sub_0_r in Hnth, Hfirst.
  split; [lia|]. split; assumption.
Qed.

(** ** More on [Send] *)

Lemma normalize_no_colon (u : string) : contains_byte ":" (normalize u) = false.
Proof.
  unfold normalize. induction u as [|c u IH]; [reflexivity|].
  cbn [strings.ReplaceAll]. destruct (Ascii.eqb c ":") eqn:E.
  - exact IH.
  - cbn [contains_byte]. now rewrite E, IH.
Qed.

Lemma normalize_empty (u : string) : normalize u = EmptyString <-> u = EmptyString.
Proof.
  split; [|intros ->; reflexivity].
  unfold normalize. destruct u as [|c u]; [reflexivity|].
  cbn [strings.ReplaceAll]. destruct (Ascii.eqb c ":"); discriminate.
Qed.

Lemma count_filtered_transferred (r : Record_) (m : Metrics) :
  log_transferred (count_filtered r m) = log_transferred m /\
  log_filtered (count_filtered r m) = log_filtered m + 1 /\
  log_transferred (count_transferred r m) = log_transferred m + 1 /\
  log_filtered (count_transferred r m) = log_filtered m.
Proof. repeat split. Qed.

Section SendCounters.

Variable RBACAllowList : string.
Variables (cs : ConnBehaviour) (l : listener) (r : Record_) (w : World).

Local Abbreviation allowListField :=
  (GetIn (Data r) ["kubernetes"; "labels"; RBACAllowList]%string).
Local Abbreviation podNameField :=
  (GetIn (Data r) ["kubernetes"; "pod_name"]%string).
Local Abbreviation user := (Username (usrInfo l)).

Lemma Send_counters_missing :
  is_string allowListField = false ->
  counters (snd (Send RBACAllowList cs l r w)) = counters w.
Proof. intros H. now rewrite Send_missing. Qed.

Lemma Send_counters_allowed (L : string) :
  allowListField = VString L ->
  In (normalize user) (strings.Split L ","%char) ->
  counters (snd (Send RBACAllowList cs l r w)) = count_transferred r (counters w).
Proof. intros HL Hin. now rewrite (Send_allowed _ _ _ _ _ L HL Hin). Qed.

Lemma Send_counters_denied (L : string) :
  allowListField = VString L ->
  ~ In (normalize user) (strings.Split L ","%char) ->
  counters (snd (Send RBACAllowList cs l r w)) = count_filtered r (counters w).
Proof.
  intros HL Hout.
  destruct (is_string podNameField) eqn:Hpod.
  - destruct podNameField eqn:Hp; try discriminate Hpod.
    now rewrite (Send_denied _ _ _ _ _ L s HL Hout Hp).
  - now rewrite (Send_denied_panics _ _ _ _ _ L HL Hout Hpod).
Qed.

End SendCounters.

Lemma is_string_cases (v : value) :
  is_string v = false \/ exists s, v = VString s.
Proof. destruct v; simpl; eauto. Qed.

Lemma frame_trace_calls (cs : ConnBehaviour) (l : listener) (data : list Byte.byte) :
  Forall (Send_call l) (frame_trace cs l data) /\
  (length (filter is_write (frame_trace cs l data)) <= 1)%nat.
Proof.
  unfold frame_trace.
  destruct (nextWriter_err cs), (write_err cs), (close_err cs); simpl;
    (split; [repeat constructor | lia]).
Qed.

(** X7. A candidate that holds a colon matches nobody, since the
    identity it is compared with has none left: when every candidate of
    the access list holds a colon, [Send] counts the record as filtered
    for every subscriber. *)
Theorem Send_colon_candidates (RBACAllowList : string) (cs : ConnBehaviour)
    (l : listener) (r : Record_) (w : World) (L : string) :
  GetIn (Data r) ["kubernetes"; "labels"; RBACAllowList]%string = VString L ->
  Forall (fun c => contains_byte ":" c = true) (strings.Split L ","%char) ->
  log_filtered (counters (snd (Send RBACAllowList cs l r w))) =
    log_filtered (counters w) + 1 /\
  log_transferred (counters (snd (Send RBACAllowList cs l r w))) =
    log_transferred (counters w).
Proof.
  intros HL Hall.
  assert (~ In (normalize (Username (usrInfo l))) (strings.Split L ","%char))
    as Hout.
  { intros Hin. rewrite List.Forall_forall in Hall. apply Hall in Hin.
    rewrite normalize_no_colon in Hin. discriminate. }
  rewrite (Send_counters_denied _ cs l r w L HL Hout).
  split; apply count_filtered_transferred.
Qed.

(** X8. An empty access list has one candidate, the empty string: the
    record is counted as transferred exactly for a subscriber whose
    username is empty. *)
Theorem Send_empty_access_list (RBACAllowList : string) (cs : ConnBehaviour)
    (l : listener) (r : Record_) (w : World) :
  GetIn (Data r) ["kubernetes"; "labels"; RBACAllowList]%string =
    VString EmptyString ->
  (log_transferred (counters (snd (Send RBACAllowList cs l r w))) =
     log_transferred (counters w) + 1 <->
   Username (usrInfo l) = EmptyString).
Proof.
  intros HL. split.
  - intros Hcount.
    destruct (string_dec (Username (usrInfo l)) EmptyString) as [|Hne];
      [assumption|].
    rewrite (Send_counters_denied _ cs l r w EmptyString HL) in Hcount.
    + destruct (count_filtered_transferred r (counters w)) as (H & _). lia.
    + intros [Hin|[]]. apply Hne, normalize_empty. now symmetry.
  - intros Hu.
    rewrite (Send_counters_allowed _ cs l r w EmptyString HL).
    + apply count_filtered_transferred.
    + rewrite Hu. now left.
Qed.

(** X9. Two identities with the same normalised form are the same
    subscriber for the access check: [Send] counts every record the same
    way for both. *)
Theorem Send_identity_collision (RBACAllowList : string) (cs : ConnBehaviour)
    (l1 l2 : listener) (r : Record_) (w : World) :
  normalize (Username (usrInfo l1)) = normalize (Username (usrInfo l2)) ->
  counters (snd (Send RBACAllowList cs l1 r w)) =
  counters (snd (Send RBACAllowList cs l2 r w)).
Proof.
  intros Hsame.
  destruct (is_string_cases
              (GetIn (Data r) ["kubernetes"; "labels"; RBACAllowList]%string))
    as [Hmiss|[L HL]].
  - now rewrite !Send_counters_missing.
  - destruct (in_dec string_dec (normalize (Username (usrInfo l1)))
                (strings.Split L ","%char)) as [Hin|Hout].
    + rewrite (Send_counters_allowed _ cs l1 r w L HL Hin).
      rewrite Hsame in Hin.
      now rewrite (Send_counters_allowed _ cs l2 r w L HL Hin).
    + rewrite (Send_counters_denied _ cs l1 r w L HL Hout).
      rewrite Hsame in Hout.
      now rewrite (Send_counters_denied _ cs l2 r w L HL Hout).
Qed.


(** X11. A record with an access list is counted exactly once: the
    transferred and the filtered count together grow by one, the
    transferred and the filtered bytes together by the length of the raw
    payload, also when [Send] panics or the write fails; the listener
    counters are not touched. *)
Theorem Send_accounting (RBACAllowList : string) (cs : ConnBehaviour)
    (l : listener) (r : Record_) (w : World) (L : string) :
  GetIn (Data r) ["kubernetes"; "labels"; RBACAllowList]%string = VString L ->
  let m := counters w in
  let m' := counters (snd (Send RBACAllowList cs l r w)) in
  log_transferred m' + log_filtered m' = log_transferred m + log_filtered m + 1 /\
  bytes_transferred m' + bytes_filtered m' =
    bytes_transferred m + bytes_filtered m + len (RawData r) /\
  listener_total m' = listener_total m /\
  listener_rejected m' = listener_rejected m /\
  listener_approved m' = listener_approved m /\
  listener_removed m' = listener_removed m.
Proof.
  intros HL m m'. subst m m'.
  destruct (in_dec string_dec (normalize (Username (usrInfo l)))
              (strings.Split L ","%char)) as [Hin|Hout].
  - rewrite (Send_counters_allowed _ cs l r w L HL Hin).
    unfold count_transferred. simpl. repeat split; lia.
  - rewrite (Send_counters_denied _ cs l r w L HL Hout).
    unfold count_filtered. simpl. repeat split; lia.
Qed.

(** X12. For a subscriber that is not in the access list the raw payload
    enters [Send] through its length only, which [metrics.Bytes] adds to
    the filtered bytes: for two records with the same fields, [Send] ends
    the same way and makes the same calls on the log, the connection and
    the scheduler whatever the raw payloads are, the counters are the
    filtered ones of each record, and for raw payloads of the same length
    the two runs are equal. *)
Theorem Send_denied_hides_payload (RBACAllowList : string) (cs : ConnBehaviour)
    (l : listener) (r1 r2 : Record_) (w : World) (L : string) :
  Data r1 = Data r2 ->
  GetIn (Data r1) ["kubernetes"; "labels"; RBACAllowList]%string = VString L ->
  ~ In (normalize (Username (usrInfo l))) (strings.Split L ","%char) ->
  fst (Send RBACAllowList cs l r1 w) = fst (Send RBACAllowList cs l r2 w) /\
  trace (snd (Send RBACAllowList cs l r1 w)) =
    trace (snd (Send RBACAllowList cs l r2 w)) /\
  counters (snd (Send RBACAllowList cs l r1 w)) =
    metrics.Bytes MBytesFiltered (len (RawData r1))
      (metrics.Log MLogFiltered (counters w)) /\
  counters (snd (Send RBACAllowList cs l r2 w)) =
    metrics.Bytes MBytesFiltered (len (RawData r2))
      (metrics.Log MLogFiltered (counters w)) /\
  (length (RawData r1) = length (RawData r2) ->
   Send RBACAllowList cs l r1 w = Send RBACAllowList cs l r2 w).
Proof.
  intros Hdata HL1 Hout.
  pose proof HL1 as HL2. rewrite Hdata in HL2.
  destruct (is_string_cases (GetIn (Data r1) ["kubernetes"; "pod_name"]%string))
    as [Hpod1|[pod Hpod1]].
  - pose proof Hpod1 as Hpod2. rewrite Hdata in Hpod2.
    rewrite (Send_denied_panics _ cs l r1 w L HL1 Hout Hpod1).
    rewrite (Send_denied_panics _ cs l r2 w L HL2 Hout Hpod2).
    unfold count_filtered, len. cbn [fst snd counters trace].
    repeat split. intros ->. reflexivity.
  - pose proof Hpod1 as Hpod2. rewrite Hdata in Hpod2.
    rewrite (Send_denied _ cs l r1 w L pod HL1 Hout Hpod1).
    rewrite (Send_denied _ cs l r2 w L pod HL2 Hout Hpod2).
    unfold count_filtered, len. cbn [fst snd counters trace].
    repeat split. intros ->. reflexivity.
Qed.

(** X13. Whatever the record and the connection, one [Send] touches the
    counters in one of three ways: not at all, or by [metrics.Log] and
    [metrics.Bytes] for a transferred record, or by the two for a filtered
    one, with the length of the raw payload. Its other calls are log
    entries, calls on the listener's own connection, with a binary message,
    and the [go] statement that unregisters this listener; there is at
    most one [Write] among them, and the registry is never called
    directly. *)
Theorem Send_calls (RBACAllowList : string) (cs : ConnBehaviour)
    (l : listener) (r : Record_) (w : World) :
  exists evs,
    trace (snd (Send RBACAllowList cs l r w)) = trace w ++ evs /\
    Forall (Send_call l) evs /\
    (length (filter is_write evs) <= 1)%nat /\
    (counters (snd (Send RBACAllowList cs l r w)) = counters w \/
     counters (snd (Send RBACAllowList cs l r w)) =
       metrics.Bytes MBytesTransferred (len (RawData r))
         (metrics.Log MLogTransfered (counters w)) \/
     counters (snd (Send RBACAllowList cs l r w)) =
       metrics.Bytes MBytesFiltered (len (RawData r))
         (metrics.Log MLogFiltered (counters w))).
Proof.
  destruct (is_string_cases
              (GetIn (Data r) ["kubernetes"; "labels"; RBACAllowList]%string))
    as [Hmiss|[L HL]].
  - rewrite Send_missing by exact Hmiss. eexists. split; [reflexivity|].
    split; [repeat constructor|]. split; [simpl; lia | now left].
  - destruct (in_dec string_dec (normalize (Username (usrInfo l)))
                (strings.Split L ","%char)) as [Hin|Hout].
    + rewrite (Send_allowed _ cs l r w L HL Hin). eexists.
      split; [reflexivity|]. split; [apply frame_trace_calls|].
      split; [apply frame_trace_calls | right; now left].
    + destruct (is_string_cases (GetIn (Data r) ["kubernetes"; "pod_name"]%string))
        as [Hpod|[pod Hpod]].
      * rewrite (Send_denied_panics _ cs l r w L HL Hout Hpod).
        exists []. cbn [snd trace]. rewrite app_nil_r.
        split; [reflexivity|]. split; [constructor|].
        split; [simpl; lia | right; now right].
      * rewrite (Send_denied _ cs l r w L pod HL Hout Hpod). eexists.
        split; [reflexivity|]. split; [apply frame_trace_calls|].
        split; [apply frame_trace_calls | right; now right].
Qed.

(** ** More on the admission handler *)

Ltac admission_cases AuthHeaderKey env r w :=
  let Htok := fresh "Htok" in
  let Hauth := fresh "Hauth" in
  let Hflow := fresh "Hflow" in
  let Hup := fresh "Hup" in
  destruct (string_dec (Header_Get (Header r) AuthHeaderKey) EmptyString)
    as [Htok|Htok];
  [ rewrite (handler_no_token AuthHeaderKey env r w Htok)
  | destruct (Authenticate env (Header_Get (Header r) AuthHeaderKey))
      as [?usr|?err] eqn:Hauth;
    [ destruct (ExtractFlow r) as [?nn [?err|]] eqn:Hflow;
      [ rewrite (handler_bad_flow AuthHeaderKey env r w _ _ _ Htok Hauth Hflow)
      | destruct (Upgrade env r) as [?wsConn|?err] eqn:Hup;
        [ rewrite (handler_admitted AuthHeaderKey env r w _ _ _ Htok Hauth Hflow Hup)
        | rewrite (handler_upgrade_failed AuthHeaderKey env r w _ _ _ Htok Hauth Hflow Hup) ] ]
    | rewrite (handler_auth_failed AuthHeaderKey env r w _ Htok Hauth) ] ].

(** X14. The handler returns on every request, having added exactly one
    to the total counter; it adds at most one to the rejected and the
    approved counter together, takes nothing from either, and leaves the
    removed counter and the record counters alone. *)
Theorem handler_counts_request (AuthHeaderKey : string) (env : Env)
    (r : Request) (w : World) :
  let m := counters w in
  let m' := counters (snd (Listen_handler AuthHeaderKey env r w)) in
  fst (Listen_handler AuthHeaderKey env r w) = Returned tt /\
  listener_total m' = listener_total m + 1 /\
  listener_rejected m <= listener_rejected m' /\
  listener_approved m <= listener_approved m' /\
  listener_rejected m' + listener_approved m' <=
    listener_rejected m + listener_approved m + 1 /\
  listener_removed m' = listener_removed m /\
  log_transferred m' = log_transferred m /\
  log_filtered m' = log_filtered m /\
  bytes_transferred m' = bytes_transferred m /\
  bytes_filtered m' = bytes_filtered m.
Proof.
  intros m m'. subst m m'.
  admission_cases AuthHeaderKey env r w; simpl; repeat split; lia.
Qed.

(** X15. When the upgrade fails, the handler logs the error and
    returns: it makes no call of [http.Error] of its own (whatever the
    client is told comes from the upgrader, inside the call), and it counts
    the request as neither rejected nor approved. *)
Theorem handler_upgrade_failure_uncounted (AuthHeaderKey : string) (env : Env)
    (r : Request) (w : World) (usr : UserInfo) (nn : FlowReference)
    (err : error) :
  Header_Get (Header r) AuthHeaderKey <> EmptyString ->
  Authenticate env (Header_Get (Header r) AuthHeaderKey) = inl usr ->
  ExtractFlow r = (nn, None) ->
  Upgrade env r = inr err ->
  let w' := snd (Listen_handler AuthHeaderKey env r w) in
  trace w' =
    trace w ++
    [EvLog "new listener" None;
     EvAuthenticate (Header_Get (Header r) AuthHeaderKey);
     EvUpgrade;
     EvLog "failed to upgrade connection" (Some err)] /\
  listener_rejected (counters w') = listener_rejected (counters w) /\
  listener_approved (counters w') = listener_approved (counters w) /\
  listener_total (counters w') = listener_total (counters w) + 1.
Proof.
  intros Htok Hauth Hflow Hup w'. subst w'.
  rewrite (handler_upgrade_failed _ env r w usr nn err Htok Hauth Hflow Hup).
  simpl. auto.
Qed.

(** X16. Without a token the authenticator accepts, the answer does not
    depend on the path: two requests with the same header, whose token is
    missing or refused, are handled the same way whatever flows they
    name. *)
Theorem handler_unauthenticated_path_blind (AuthHeaderKey : string) (env : Env)
    (r1 r2 : Request) (w : World) :
  Header r1 = Header r2 ->
  Header_Get (Header r1) AuthHeaderKey = EmptyString \/
  (exists err,
      Authenticate env (Header_Get (Header r1) AuthHeaderKey) = inr err) ->
  Listen_handler AuthHeaderKey env r1 w = Listen_handler AuthHeaderKey env r2 w.
Proof.
  intros Hh Hbad.
  destruct (string_dec (Header_Get (Header r1) AuthHeaderKey) EmptyString)
    as [Htok|Htok].
  - pose proof Htok as Htok2. rewrite Hh in Htok2.
    now rewrite (handler_no_token _ env r1 w Htok),
      (handler_no_token _ env r2 w Htok2).
  - destruct Hbad as [Hbad|[err Hauth]]; [contradiction|].
    pose proof Htok as Htok2. pose proof Hauth as Hauth2.
    rewrite Hh in Htok2, Hauth2.
    rewrite (handler_auth_failed _ env r1 w err Htok Hauth),
      (handler_auth_failed _ env r2 w err Htok2 Hauth2).
    now rewrite Hh.
Qed.

(** X17. The handler calls [http.Error] at most once for a request, and
    never once it has called the upgrader, whose connection is no longer
    the handler's to answer on; it calls the upgrader at most once. *)
Theorem handler_response_before_upgrade (AuthHeaderKey : string) (env : Env)
    (r : Request) (w : World) :
  exists evs,
    trace (snd (Listen_handler AuthHeaderKey env r w)) = trace w ++ evs /\
    (length (filter is_http_error evs) <= 1)%nat /\
    (length (filter is_upgrade evs) <= 1)%nat /\
    (existsb is_upgrade evs = true -> filter is_http_error evs = []).
Proof.
  admission_cases AuthHeaderKey env r w; eexists;
    (split; [reflexivity|]); simpl; repeat split; try lia; discriminate.
Qed.

(** X18. The close handler installed by an admission unregisters, with
    a direct call, the very listener the admission registered: after an
    admission followed by a close event the registry has seen [Register]
    and then [Unregister] of the same listener, and the approved and the
    removed counter have both grown by one. *)
Theorem admission_then_close (AuthHeaderKey : string) (env : Env)
    (r : Request) (w : World) (usr : UserInfo) (nn : FlowReference)
    (wsConn : ConnHandle) :
  Header_Get (Header r) AuthHeaderKey <> EmptyString ->
  Authenticate env (Header_Get (Header r) AuthHeaderKey) = inl usr ->
  ExtractFlow r = (nn, None) ->
  Upgrade env r = inl wsConn ->
  let l := mklistener wsConn nn usr in
  exists w',
    bind (Listen_handler AuthHeaderKey env r) (fun _ => closeHandler l) w =
      (Returned tt, w') /\
    trace w' =
      trace w ++
      [EvLog "new listener" None;
       EvAuthenticate (Header_Get (Header r) AuthHeaderKey);
       EvUpgrade;
       EvLog "successful websocket upgrade" None;
       EvRegister l;
       EvGo (GoReadLoop wsConn);
       EvSetCloseHandler wsConn l;
       EvLog "websocket connection closing" None;
       EvUnregister l] /\
    listener_approved (counters w') = listener_approved (counters w) + 1 /\
    listener_removed (counters w') = listener_removed (counters w) + 1.
Proof.
  intros Htok Hauth Hflow Hup l. subst l.
  eexists. split.
  - unfold bind at 1.
    rewrite (handler_admitted _ env r w usr nn wsConn Htok Hauth Hflow Hup).
    unfold closeHandler. run_go. reflexivity.
  - cbn [trace counters]. rewrite <- !app_assoc. simpl. auto.
Qed.

(** ** The read loop *)

Lemma readLoop_step (m : Z * option error) (rest : list (Z * option error)) :
  readLoop (m :: rest) =
  if ends_loop m then (1%nat, true)
  else (S (fst (readLoop rest)), snd (readLoop rest)).
Proof.
  destruct m as [typ err]. unfold ends_loop. cbn [readLoop fst snd].
  destruct ((typ =? CloseMessage) || _); [reflexivity|].
  now destruct (readLoop rest).
Qed.

(** X19. The read loop returns at the first answer of [ReadMessage] that
    is a close message or an error, having read every message before it
    and none after it; as long as no such answer comes it keeps reading. *)
Theorem readLoop_stops_at_first (pre post : list (Z * option error))
    (m : Z * option error) :
  Forall (fun a => ends_loop a = false) pre ->
  (ends_loop m = true ->
   readLoop (pre ++ m :: post) = (S (length pre), true)) /\
  readLoop pre = (length pre, false).
Proof.
  induction 1 as [|a pre Ha Hpre [IHstop IHrun]].
  - split; [|reflexivity].
    intros Hm. rewrite app_nil_l, readLoop_step, Hm. reflexivity.
  - split.
    + intros Hm. cbn [app]. rewrite readLoop_step, Ha, (IHstop Hm). reflexivity.
    + rewrite readLoop_step, Ha, IHrun. reflexivity.
Qed.

(** ** The earlier revision, continued *)

(** X20. In the earlier handler [Register] is called exactly when the
    upgrade and then the flow parsing succeed, on the listener made of
    their results; and a parse error is answered with status 404 only on a
    connection that is already upgraded. *)
Theorem Part000_handler_calls (Upgrade : Request -> ConnHandle + error)
    (r : Request) :
  (forall l,
      In (Part000.CRegister l) (Part000.Listen_handler Upgrade r) <->
      Upgrade r = inl (Part000.Conn l) /\
      Part000.ExtractFlow r = (Part000.flow l, None)) /\
  (forall msg code,
      In (Part000.CHttpError msg code) (Part000.Listen_handler Upgrade r) <->
      (exists wsConn, Upgrade r = inl wsConn) /\
      code = StatusNotFound /\
      snd (Part000.ExtractFlow r) = Some msg).
Proof.
  unfold Part000.Listen_handler.
  destruct (Upgrade r) as [wsConn|err];
    destruct (Part000.ExtractFlow r) as [nn [e|]]; simpl; split.
  all: first [intros [c f] | intros msg code]; simpl; split; intros H.
  all: repeat match goal with
         | H : _ \/ _ |- _ => destruct H
         | H : _ /\ _ |- _ => destruct H
         | H : exists _, _ |- _ => destruct H
         | H : False |- _ => destruct H
         | H : _ = _ |- _ => first [discriminate H | injection H as H; subst]
         end.
  all: eauto 10.
Qed.

(** X21. The earlier [Send] has no access check: it hands the record's
    data, and nothing else, to [Write] whenever the writer is obtained,
    whoever the listener is, and it schedules the unregistration exactly
    when one of the three calls fails. *)
Theorem Part000_Send_calls (cs : ConnBehaviour) (l : Part000.listener)
    (r : Part000.Record_) :
  (In (Part000.SWrite (Part000.Conn l) (Part000.Data r)) (Part000.Send cs l r) <->
   nextWriter_err cs = None) /\
  (forall c data,
      In (Part000.SWrite c data) (Part000.Send cs l r) ->
      c = Part000.Conn l /\ data = Part000.Data r) /\
  (In (Part000.SGoUnregister l) (Part000.Send cs l r) <-> fails cs = true).
Proof.
  unfold Part000.Send, fails.
  destruct (nextWriter_err cs), (write_err cs), (close_err cs); simpl.
  all: split; [|split]; [split; intros H | intros c data H | split; intros H].
  all: repeat match goal with
         | H : _ \/ _ |- _ => destruct H
         | H : False |- _ => destruct H
         | H : _ = _ |- _ => first [discriminate H | injection H as H; subst]
         end.
  all: auto 10.
Qed.

(** ** The further properties at concrete inputs *)

Lemma ExtractFlow_of_flow_path_witness :
  ExtractFlow (mkRequest ∅ (flow_path "clusterflow" "logging" EmptyString)) =
  (mkFlowReference ClusterFlow "logging" EmptyString, None).
Proof.
  apply (ExtractFlow_of_flow_path ∅ "clusterflow" "logging" EmptyString);
    [discriminate | reflexivity | reflexivity | reflexivity].
Defined.

Lemma ExtractFlow_ok_iff_two_slashes_witness :
  snd (ExtractFlow (mkRequest ∅ "//flow/ns/n")) = None.
Proof.
  apply (ExtractFlow_ok_iff_two_slashes (mkRequest ∅ "//flow/ns/n")).
  vm_compute. lia.
Defined.

Lemma ExtractFlow_fields_clean_witness :
  Kind (mkFlowReference Flow "ns" "n") <> EmptyString /\
  contains_byte "/" (Kind (mkFlowReference Flow "ns" "n")) = false /\
  contains_byte "/" (Namespace (mkFlowReference Flow "ns" "n")) = false /\
  contains_byte "/" (Name (mkFlowReference Flow "ns" "n")) = false.
Proof.
  apply (ExtractFlow_fields_clean (mkRequest ∅ "/flow/ns/n/more")
           (mkFlowReference Flow "ns" "n")).
  reflexivity.
Defined.

Lemma ExtractFlow_revisions_witness :
  ExtractFlow (mkRequest ∅ "/flow/ns/n") =
    (mkFlowReference Flow "ns" "n", None) /\
  snd (ExtractFlow (mkRequest ∅ "/clusterflow/n")) <> None.
Proof.
  split.
  - destruct (ExtractFlow_revisions (mkRequest ∅ "/flow/ns/n")
                (Part000.mkNamespacedName "ns" "n") eq_refl) as [Hflow _].
    exact (Hflow eq_refl).
  - destruct (ExtractFlow_revisions (mkRequest ∅ "/clusterflow/n")
                (Part000.mkNamespacedName EmptyString "n") eq_refl) as [_ Hcluster].
    apply Hcluster. exists "n"%string. reflexivity.
Defined.

Lemma SeekSlice_first_index_witness :
  0 <= SeekSlice ["alice"; "bob"; "bob"]%string "bob" < 3 /\
  nth (Z.to_nat (SeekSlice ["alice"; "bob"; "bob"]%string "bob"))
      ["alice"; "bob"; "bob"]%string EmptyString = "bob"%string.
Proof.
  destruct (SeekSlice_first_index ["alice"; "bob"; "bob"]%string "bob")
    as [_ Hfound].
  destruct Hfound as (Hrange & Hnth & _).
  - vm_compute. discriminate.
  - split; assumption.
Defined.

Lemma Send_colon_candidates_witness :
  log_filtered
    (counters (snd (Send sample_label healthy (sample_listener "a:b")
                      (sample_record (Some (VString "a:b,system:node:n1")) None)
                      World_zero))) = 0 + 1.
Proof.
  apply (Send_colon_candidates sample_label healthy (sample_listener "a:b")
           (sample_record (Some (VString "a:b,system:node:n1")) None)
           World_zero "a:b,system:node:n1").
  - vm_compute. reflexivity.
  - vm_compute. repeat constructor.
Defined.

Lemma Send_empty_access_list_witness :
  log_transferred
    (counters (snd (Send sample_label healthy (sample_listener EmptyString)
                      (sample_record (Some (VString EmptyString)) None)
                      World_zero))) = 0 + 1.
Proof.
  apply (Send_empty_access_list sample_label healthy (sample_listener EmptyString)
           (sample_record (Some (VString EmptyString)) None) World_zero).
  - vm_compute. reflexivity.
  - reflexivity.
Defined.

Lemma Send_identity_collision_witness :
  counters (snd (Send sample_label healthy (sample_listener "a:b")
                   (sample_record (Some (VString "a_b")) None) World_zero)) =
  counters (snd (Send sample_label healthy (sample_listener "a_b")
                   (sample_record (Some (VString "a_b")) None) World_zero)).
Proof.
  apply (Send_identity_collision sample_label healthy (sample_listener "a:b")
           (sample_listener "a_b")).
  vm_compute. reflexivity.
Defined.

Lemma Send_accounting_witness :
  let m' :=
    counters (snd (Send sample_label (mkConnBehaviour (Some "closed"%string) None None)
                     (sample_listener "carol")
                     (sample_record (Some (VString "alice,bob")) None)
                     World_zero)) in
  log_transferred m' + log_filtered m' = 0 + 0 + 1 /\
  bytes_transferred m' + bytes_filtered m' = 0 + 0 + 5.
Proof.
  destruct (Send_accounting sample_label
              (mkConnBehaviour (Some "closed"%string) None None)
              (sample_listener "carol")
              (sample_record (Some (VString "alice,bob")) None)
              World_zero "alice,bob")
    as (Hcount & Hbytes & _).
  - vm_compute. reflexivity.
  - split; [exact Hcount | exact Hbytes].
Defined.

Lemma Send_denied_hides_payload_witness :
  trace (snd (Send sample_label healthy (sample_listener "carol")
                (mkRecord (sample_data (Some (VString "alice,bob"))
                             (Some (VString "pod-1")))
                          (list_byte_of_string "secret one"))
                World_zero)) =
  trace (snd (Send sample_label healthy (sample_listener "carol")
                (mkRecord (sample_data (Some (VString "alice,bob"))
                             (Some (VString "pod-1")))
                          (list_byte_of_string "another secret"))
                World_zero)).
Proof.
  apply (Send_denied_hides_payload sample_label healthy (sample_listener "carol")
           (mkRecord (sample_data (Some (VString "alice,bob"))
                        (Some (VString "pod-1")))
                     (list_byte_of_string "secret one"))
           (mkRecord (sample_data (Some (VString "alice,bob"))
                        (Some (VString "pod-1")))
                     (list_byte_of_string "another secret"))
           World_zero "alice,bob").
  - reflexivity.
  - vm_compute. reflexivity.
  - vm_compute. intros [H|[H|[]]]; discriminate H.
Defined.

Lemma handler_upgrade_failure_uncounted_witness :
  listener_rejected
    (counters (snd (Listen_handler sample_header (sample_env false)
                      (sample_request ["t0k3n"%string] "/flow/ns/n")
                      World_zero))) = 0 /\
  listener_approved
    (counters (snd (Listen_handler sample_header (sample_env false)
                      (sample_request ["t0k3n"%string] "/flow/ns/n")
                      World_zero))) = 0.
Proof.
  destruct (handler_upgrade_failure_uncounted sample_header (sample_env false)
              (sample_request ["t0k3n"%string] "/flow/ns/n") World_zero
              (mkUserInfo "bob" "uid" []) (mkFlowReference Flow "ns" "n")
              "bad handshake")
    as (_ & Hrejected & Happroved & _).
  - vm_compute. discriminate.
  - vm_compute. reflexivity.
  - vm_compute. reflexivity.
  - vm_compute. reflexivity.
  - split; assumption.
Defined.

Lemma handler_unauthenticated_path_blind_witness :
  Listen_handler sample_header (sample_env true)
    (sample_request ["wrong"%string] "/flow/ns/n") World_zero =
  Listen_handler sample_header (sample_env true)
    (sample_request ["wrong"%string] "/no/such") World_zero.
Proof.
  apply handler_unauthenticated_path_blind.
  - reflexivity.
  - right. exists "invalid token"%string. vm_compute. reflexivity.
Defined.

Lemma handler_response_before_upgrade_witness :
  exists evs,
    trace (snd (Listen_handler sample_header (sample_env false)
                  (sample_request ["t0k3n"%string] "/flow/ns/n") World_zero)) =
    evs /\
    filter is_http_error evs = [].
Proof.
  destruct (handler_response_before_upgrade sample_header (sample_env false)
              (sample_request ["t0k3n"%string] "/flow/ns/n") World_zero)
    as (evs & Htrace & _ & _ & Hnone).
  exists evs. split; [exact Htrace|].
  apply Hnone. vm_compute in Htrace. rewrite <- Htrace. reflexivity.
Defined.

Lemma admission_then_close_witness :
  exists w',
    bind (Listen_handler sample_header (sample_env true)
            (sample_request ["t0k3n"%string] "/flow/ns/n"))
         (fun _ => closeHandler (sample_listener "bob")) World_zero =
    (Returned tt, w') /\
    listener_approved (counters w') = 1 /\
    listener_removed (counters w') = 1.
Proof.
  destruct (admission_then_close sample_header (sample_env true)
              (sample_request ["t0k3n"%string] "/flow/ns/n") World_zero
              (mkUserInfo "bob" "uid" []) (mkFlowReference Flow "ns" "n") 7%nat)
    as (w' & Hrun & _ & Happroved & Hremoved).
  - vm_compute. discriminate.
  - vm_compute. reflexivity.
  - vm_compute. reflexivity.
  - vm_compute. reflexivity.
  - exists w'. repeat split; assumption.
Defined.

Lemma readLoop_stops_at_first_witness :
  readLoop [(1, None); (2, None); (CloseMessage, None); (1, None)] =
  (3%nat, true).
Proof.
  apply (readLoop_stops_at_first [(1, None); (2, None)] [(1, None)]
           (CloseMessage, None)).
  - repeat constructor.
  - reflexivity.
Defined.

Lemma Part000_handler_calls_witness :
  In (Part000.CHttpError "unknown flow type in listener reg URL" StatusNotFound)
     (Part000.Listen_handler (fun _ => inl 7%nat) (mkRequest ∅ "/pod/ns/name")).
Proof.
  apply (Part000_handler_calls (fun _ => inl 7%nat) (mkRequest ∅ "/pod/ns/name")).
  split; [exists 7%nat; reflexivity|]. split; reflexivity.
Defined.

Lemma Part000_Send_calls_witness :
  In (Part000.SGoUnregister
        (Part000.mklistener 7%nat (Part000.mkNamespacedName "ns" "n")))
     (Part000.Send (mkConnBehaviour None None (Some "reset"%string))
        (Part000.mklistener 7%nat (Part000.mkNamespacedName "ns" "n"))
        (Part000.mkRecord sample_raw)).
Proof.
  apply (Part000_Send_calls (mkConnBehaviour None None (Some "reset"%string))
           (Part000.mklistener 7%nat (Part000.mkNamespacedName "ns" "n"))
           (Part000.mkRecord sample_raw)).
  reflexivity.
Defined.
